(** * Water-hyacinth dashboard ([app.py]): raster classifier, bounds and
      table validation

    A shallow embedding of the parts of [app.py] that carry logic:
    [raster_bounds_4326], [classify_raster_to_rgba], [build_raster_map],
    the Map View branch, [load_data] and [validate_columns].

    - numpy [float32] cells and Python floats are IEEE-754 values in the
      representation of [SpecFloat] (comparisons are the IEEE ones: a NaN
      compares false with everything, the two zeros are equal);
    - a numpy array is a shape with a flat row-major buffer;
    - the script runs in a state-and-exception monad: the state holds the
      files on disk, the cache of [st.cache_data], the number of open
      dataset handles and the Streamlit elements emitted so far;
      [st.stop()] is the exception Streamlit raises to end a script run;
    - a Python [str] is its UTF-8 encoding;
    - what the external libraries compute ([transform_bounds] of rasterio,
      [pd.to_numeric]) is a parameter of the development. *)

From Stdlib Require Import ZArith Bool Ascii.
From Stdlib Require Import Floats.SpecFloat.
From stdpp Require Import base option list strings gmap.

Open Scope Z_scope.

(** ** IEEE-754 values *)

Module Float.

(** numpy [float32]: 24 bits of precision, exponent of infinity 128. *)
Definition prec32 : Z := 24.
Definition emax32 : Z := 128.

(** Python [float]: binary64. *)
Definition prec64 : Z := 53.
Definition emax64 : Z := 1024.

Definition zero : spec_float := S754_zero false.

Definition isnan (x : spec_float) : bool :=
  match x with S754_nan => true | _ => false end.

(** [x == y], [x <= y], [x > y] as numpy evaluates them on one cell. *)
Definition eqb (x y : spec_float) : bool := SFeqb x y.
Definition leb (x y : spec_float) : bool := SFleb x y.
Definition gtb (x y : spec_float) : bool := SFltb y x.
Definition ltb (x y : spec_float) : bool := SFltb x y.

(** An integer cell converted to [float32], to nearest-even. *)
Definition f32_of_Z (z : Z) : spec_float :=
  binary_normalize prec32 emax32 z 0 false.

(** A Python number written as an integer literal, as a binary64. *)
Definition f64_of_Z (z : Z) : spec_float :=
  binary_normalize prec64 emax64 z 0 false.

(** A binary64 narrowed to [float32], to nearest-even; overflow gives
    the infinity of the same sign. *)
Definition f32_of_f64 (x : spec_float) : spec_float :=
  match x with
  | S754_finite s m e => binary_round prec32 emax32 s m e
  | _ => x
  end.

(** Python float arithmetic used for the centre of the map. *)
Definition add64 (x y : spec_float) : spec_float := SFadd prec64 emax64 x y.
Definition div64 (x y : spec_float) : spec_float := SFdiv prec64 emax64 x y.

End Float.

(** ** numpy arrays *)

Record ndarray (A : Type) : Type := mk_ndarray {
  nd_h : nat;          (* shape[0] *)
  nd_w : nat;          (* shape[1] *)
  nd_data : list A     (* row-major buffer *)
}.
Arguments mk_ndarray {A} _ _ _.
Arguments nd_h {A} _.
Arguments nd_w {A} _.
Arguments nd_data {A} _.

Definition nd_wf {A} (a : ndarray A) : Prop :=
  length (nd_data a) = (nd_h a * nd_w a)%nat.

Definition shape {A} (a : ndarray A) : nat * nat := (nd_h a, nd_w a).

(** [a[i, j]] for indices inside the shape. *)
Definition getitem {A} (a : ndarray A) (i j : nat) : option A :=
  if bool_decide (i < nd_h a ∧ j < nd_w a)%nat
  then nd_data a !! (i * nd_w a + j)%nat
  else None.

(** A unary ufunc, and a binary ufunc on two arrays of one shape. *)
Definition nd_map {A B} (f : A → B) (a : ndarray A) : ndarray B :=
  mk_ndarray (nd_h a) (nd_w a) (f <$> nd_data a).

Definition nd_zip {A B C} (f : A → B → C) (a : ndarray A) (b : ndarray B)
  : ndarray C :=
  mk_ndarray (nd_h a) (nd_w a) (zip_with f (nd_data a) (nd_data b)).

(** One RGBA pixel of a [uint8] image. *)
Definition rgba_px : Type := Z * Z * Z * Z.

Definition uint8 (z : Z) : Z := z mod 256.

Definition px_of (r g b a : Z) : rgba_px := (uint8 r, uint8 g, uint8 b, uint8 a).

(** [np.zeros((h, w, 4), dtype=np.uint8)] *)
Definition np_zeros (h w : nat) : ndarray rgba_px :=
  mk_ndarray h w (replicate (h * w) (0, 0, 0, 0)).

(** [img[mask] = px]: the cells where the mask is true take [px]. *)
Definition setitem_mask (img : ndarray rgba_px) (mask : ndarray bool)
    (px : rgba_px) : ndarray rgba_px :=
  nd_zip (λ (m : bool) old, if m then px else old) mask img.

(** ** Raster cells and the classification of one band *)

(** A cell of the band in the data type of the file. *)
Inductive cell : Type :=
  | IntCell (z : Z)                 (* uint8, int16, int32, ... *)
  | F32Cell (x : spec_float)        (* float32 *)
  | F64Cell (x : spec_float).       (* float64 *)

(** [band.astype("float32")] on one cell. *)
Definition astype_float32 (c : cell) : spec_float :=
  match c with
  | IntCell z => Float.f32_of_Z z
  | F32Cell x => x
  | F64Cell x => Float.f32_of_f64 x
  end.

(** The two class colours, [R, G, B, A]. *)
Definition BACKGROUND_RGBA : rgba_px := px_of 0 120 255 180.
Definition HYACINTH_RGBA : rgba_px := px_of 0 200 0 220.

(** The no-data mask on one cell. [nodata] is the Python float of
    [src.nodata]; numpy compares it with a [float32] array in [float32]. *)
Definition is_nodata (nodata : option spec_float) (x : spec_float) : bool :=
  match nodata with
  | Some nd => Float.eqb x (Float.f32_of_f64 nd) || Float.isnan x
  | None => Float.isnan x
  end.

Definition is_background (nodata : option spec_float) (x : spec_float) : bool :=
  is_nodata nodata x || Float.leb x Float.zero.

Definition is_hyacinth (nodata : option spec_float) (x : spec_float) : bool :=
  negb (is_nodata nodata x) && Float.gtb x Float.zero.

(** The three masks of [classify_raster_to_rgba], on the [float32] band. *)
Definition nodata_mask (band : ndarray spec_float) (nodata : option spec_float)
  : ndarray bool :=
  match nodata with
  | Some nd =>
      nd_zip orb (nd_map (λ x, Float.eqb x (Float.f32_of_f64 nd)) band)
                 (nd_map Float.isnan band)
  | None => nd_map Float.isnan band
  end.

Definition background_mask (band : ndarray spec_float)
    (nodata : option spec_float) : ndarray bool :=
  nd_zip orb (nodata_mask band nodata)
             (nd_map (λ x, Float.leb x Float.zero) band).

Definition hyacinth_mask (band : ndarray spec_float)
    (nodata : option spec_float) : ndarray bool :=
  nd_zip andb (nd_map negb (nodata_mask band nodata))
              (nd_map (λ x, Float.gtb x Float.zero) band).

(** The body of [classify_raster_to_rgba] once the band is read. *)
Definition classify_band (raw : ndarray cell) (nodata : option spec_float)
  : ndarray rgba_px :=
  let band := nd_map astype_float32 raw in
  let is_nodata := nodata_mask band nodata in
  let is_background := background_mask band nodata in
  let is_hyacinth := hyacinth_mask band nodata in
  let '(h, w) := shape band in
  let rgba := np_zeros h w in
  let rgba := setitem_mask rgba is_background BACKGROUND_RGBA in
  let rgba := setitem_mask rgba is_hyacinth HYACINTH_RGBA in
  rgba.

(** What the two masked assignments leave in one cell. *)
Definition cell_rgba (nodata : option spec_float) (x : spec_float) : rgba_px :=
  if is_hyacinth nodata x then HYACINTH_RGBA
  else if is_background nodata x then BACKGROUND_RGBA
  else (0, 0, 0, 0).

(** The two classes of the specification and their colours. *)
Inductive pixel_class : Type := Background | Hyacinth.

Definition class_rgba (c : pixel_class) : rgba_px :=
  match c with
  | Background => (0, 120, 255, 180)
  | Hyacinth => (0, 200, 0, 220)
  end.

(** "No-data" in the words of the specification: the value equals the
    declared sentinel, when one is declared, or is not a number. *)
Definition NoData (nodata : option spec_float) (x : spec_float) : Prop :=
  (∃ nd, nodata = Some nd ∧ Float.eqb x (Float.f32_of_f64 nd) = true)
  ∨ Float.isnan x = true.

(** ** Python strings *)

Definition upper_ascii (c : ascii) : ascii :=
  let n := N_of_ascii c in
  if ((97 <=? n) && (n <=? 122))%N then ascii_of_N (n - 32) else c.

(** [s.upper()] *)
Fixpoint upper (s : string) : string :=
  match s with
  | EmptyString => EmptyString
  | String c s' => String (upper_ascii c) (upper s')
  end.

(** The UTF-8 encoding of a code point below 0x10000. *)
Definition utf8 (cp : N) : list ascii :=
  if (cp <? 128)%N then [ascii_of_N cp]
  else if (cp <? 2048)%N
  then [ascii_of_N (192 + cp / 64); ascii_of_N (128 + cp mod 64)]
  else [ascii_of_N (224 + cp / 4096); ascii_of_N (128 + (cp / 64) mod 64);
        ascii_of_N (128 + cp mod 64)].

(** The code points for which [str.isspace()] holds, which are the
    characters [str.strip()] removes: U+0009 to U+000D, U+001C to U+0020,
    U+0085, U+00A0, U+1680, U+2000 to U+200A, U+2028, U+2029, U+202F,
    U+205F, U+3000. *)
Definition WHITESPACE : list N :=
  [9; 10; 11; 12; 13; 28; 29; 30; 31; 32; 133; 160; 5760;
   8192; 8193; 8194; 8195; 8196; 8197; 8198; 8199; 8200; 8201; 8202;
   8232; 8233; 8239; 8287; 12288]%N.

(** Removes from the head of [s] the characters whose bytes are in [ws];
    a character takes one, two or three bytes. *)
Fixpoint strip_left (ws : list (list ascii)) (s : list ascii) : list ascii :=
  match s with
  | [] => []
  | a :: r =>
      if bool_decide ([a] ∈ ws) then strip_left ws r
      else
        match r with
        | [] => s
        | b :: r' =>
            if bool_decide ([a; b] ∈ ws) then strip_left ws r'
            else
              match r' with
              | [] => s
              | c :: r'' =>
                  if bool_decide ([a; b; c] ∈ ws) then strip_left ws r'' else s
              end
        end
  end.

Definition lstrip_bytes (s : list ascii) : list ascii :=
  strip_left (utf8 <$> WHITESPACE) s.

(** At the end of the string the bytes of a character are met last byte
    first. *)
Definition rstrip_bytes (s : list ascii) : list ascii :=
  reverse (strip_left (reverse <$> (utf8 <$> WHITESPACE)) (reverse s)).

(** [s.lstrip()], [s.rstrip()], [s.strip()] *)
Definition lstrip (s : string) : string :=
  String.string_of_list_ascii (lstrip_bytes (String.list_ascii_of_string s)).

Definition rstrip (s : string) : string :=
  String.string_of_list_ascii (rstrip_bytes (String.list_ascii_of_string s)).

Definition strip (s : string) : string := rstrip (lstrip s).

(** [chr(cp)], for a code point below 0x10000. *)
Definition chr (cp : N) : string := String.string_of_list_ascii (utf8 cp).

(** ** Files, exceptions and the script monad *)

(** What the script observes of a rasterio CRS object: its truth value
    and its string form. *)
Record CRS : Type := mk_CRS {
  crs_truthy : bool;     (* bool(crs) *)
  crs_str : string       (* str(crs) *)
}.

(** [src.bounds] *)
Record BoundingBox : Type := mk_BoundingBox {
  left : spec_float;
  bottom : spec_float;
  right : spec_float;
  top : spec_float
}.

(** An opened GeoTIFF. *)
Record dataset : Type := mk_dataset {
  ds_bounds : BoundingBox;
  ds_crs : option CRS;               (* None is Python's None *)
  ds_nodata : option spec_float;     (* src.nodata *)
  ds_bands : list (ndarray cell)     (* band 1 first *)
}.

(** A pandas value, a column with its label, a table. *)
Inductive value : Type :=
  | VStr (s : string)
  | VNum (x : spec_float).

Record DataFrame : Type := mk_DataFrame {
  df_cols : list (string * list value)
}.

(** A CSV file on disk, as [pd.read_csv] finds it: a table, or a file it
    cannot read (no columns to parse, a malformed row, bytes that are not
    UTF-8). *)
Inductive csv_file : Type :=
  | Parsed (df : DataFrame)
  | EmptyFile
  | Malformed
  | BadEncoding.

(** [df.columns] *)
Definition columns (df : DataFrame) : list string := fst <$> df_cols df.

Inductive exn : Type :=
  | RasterioIOError (path : string)      (* rasterio.open failed *)
  | FileNotFoundError (path : string)    (* pd.read_csv: no such file *)
  | EmptyDataError                       (* pd.read_csv: nothing to parse *)
  | ParserError                          (* pd.read_csv: malformed rows *)
  | UnicodeDecodeError                   (* pd.read_csv: not UTF-8 *)
  | NameError (name : string)            (* a name that is not bound *)
  | ValueError                           (* folium.Map: NaN in the location *)
  | IndexError                           (* band index out of range *)
  | TypeError                            (* pd.to_numeric on a DataFrame *)
  | WarpError (msg : string)             (* raised inside transform_bounds *)
  | StopException.                       (* st.stop() *)

Inductive result (A : Type) : Type :=
  | Ok (a : A)
  | Raise (e : exn).
Arguments Ok {A} _.
Arguments Raise {A} _.

(** [[south, west], [north, east]] *)
Definition bounds_4326 : Type := (spec_float * spec_float) * (spec_float * spec_float).

(** The folium objects the script builds. *)
Record ImageOverlay : Type := mk_ImageOverlay {
  ov_image : ndarray rgba_px;
  ov_bounds : bounds_4326;
  ov_opacity : spec_float;
  ov_name : string;
  ov_interactive : bool;
  ov_zindex : Z
}.

Record FoliumMap : Type := mk_FoliumMap {
  m_location : spec_float * spec_float;
  m_zoom_start : Z;
  m_control_scale : bool;
  m_overlays : list ImageOverlay;
  m_fit_bounds : option bounds_4326;
  m_layer_control : option bool;        (* collapsed *)
  m_legend : option string              (* title of the legend box *)
}.

(** The text of a Streamlit element: a literal, or an f-string ending in
    the interpolation of a list of names. *)
Inductive text : Type :=
  | Lit (s : string)
  | FmtList (s : string) (l : list string).

(** The Streamlit elements a run of the script emits, in order. *)
Inductive element : Type :=
  | EPageConfig (page_title layout : string)
  | ESidebarTitle (s : string)
  | ESidebarRadio (label : string) (options : list string)
  | ETitle (s : string)
  | EHeader (s : string)
  | ESubheader (s : string)
  | EWrite (t : text)
  | EWriteList (label : string) (l : list string)
  | EError (t : text)
  | ESlider (label : string) (lo hi dflt step : spec_float)
  | EColumns (n : nat)
  | EDataframe (df : DataFrame)
  | EFolium (m : FoliumMap) (width height : Z).

Record state : Type := mk_state {
  st_rasters : gmap string dataset;      (* GeoTIFF files by path *)
  st_tables : gmap string csv_file;      (* CSV files by path *)
  st_cache : option DataFrame;           (* what st.cache_data holds for load_data *)
  st_open : nat;                         (* dataset handles currently open *)
  st_ui : list element                   (* elements emitted so far *)
}.

Definition M (A : Type) : Type := state → result A * state.

#[export] Instance M_ret : MRet M := λ A a s, (Ok a, s).

#[export] Instance M_bind : MBind M := λ A B f m s,
  match m s with
  | (Ok a, s') => f a s'
  | (Raise e, s') => (Raise e, s')
  end.

Definition raise {A} (e : exn) : M A := λ s, (Raise e, s).

Definition lift {A} (r : result A) : M A := λ s, (r, s).

Definition emit (e : element) : M unit := λ s,
  (Ok tt, mk_state (st_rasters s) (st_tables s) (st_cache s) (st_open s)
            (st_ui s ++ [e])).

(** [st.stop()] *)
Definition st_stop {A} : M A := raise StopException.

Definition set_open (n : nat) (s : state) : state :=
  mk_state (st_rasters s) (st_tables s) (st_cache s) n (st_ui s).

(** [with rasterio.open(path) as src: body]: the handle is released on
    every way out of the body. *)
Definition with_rasterio_open {A} (path : string) (body : dataset → M A) : M A :=
  λ s,
    match st_rasters s !! path with
    | None => (Raise (RasterioIOError path), s)
    | Some src =>
        let '(r, s') := body src (set_open (S (st_open s)) s) in
        (r, set_open (pred (st_open s')) s')
    end.

(** [src.read(k)], bands numbered from 1. *)
Definition ds_read (src : dataset) (k : nat) : M (ndarray cell) :=
  match k with
  | O => raise IndexError
  | S k' =>
      match ds_bands src !! k' with
      | Some band => mret band
      | None => raise IndexError
      end
  end.

(** ** Streamlit, pandas and folium calls *)

Definition st_set_page_config (page_title layout : string) : M unit :=
  emit (EPageConfig page_title layout).
Definition st_sidebar_title (s : string) : M unit := emit (ESidebarTitle s).
Definition st_title (s : string) : M unit := emit (ETitle s).
Definition st_header (s : string) : M unit := emit (EHeader s).
Definition st_subheader (s : string) : M unit := emit (ESubheader s).
Definition st_write (s : string) : M unit := emit (EWrite (Lit s)).
Definition st_write_list (label : string) (l : list string) : M unit :=
  emit (EWriteList label l).
Definition st_error (t : text) : M unit := emit (EError t).
Definition st_dataframe (df : DataFrame) : M unit := emit (EDataframe df).
Definition st_columns (n : nat) : M unit := emit (EColumns n).
Definition st_folium (m : FoliumMap) (width height : Z) : M unit :=
  emit (EFolium m width height).

(** A widget shows itself and returns what the user chose. *)
Definition st_sidebar_radio (label : string) (options : list string)
    (chosen : string) : M string :=
  emit (ESidebarRadio label options);; mret chosen.

Definition st_slider (label : string) (lo hi dflt step chosen : spec_float)
  : M spec_float :=
  emit (ESlider label lo hi dflt step);; mret chosen.

(** [pd.read_csv(path, sep=";")] *)
Definition pd_read_csv (path : string) : M DataFrame := λ s,
  match st_tables s !! path with
  | Some (Parsed df) => (Ok df, s)
  | Some EmptyFile => (Raise EmptyDataError, s)
  | Some Malformed => (Raise ParserError, s)
  | Some BadEncoding => (Raise UnicodeDecodeError, s)
  | None => (Raise (FileNotFoundError path), s)
  end.

(** [@st.cache_data] on a function without arguments: the value it returned
    is kept for the runs that follow and returned without running the
    function again; an exception is not kept. *)
Definition st_cache_data (f : M DataFrame) : M DataFrame := λ s,
  match st_cache s with
  | Some df => (Ok df, s)
  | None =>
      match f s with
      | (Ok df, s') =>
          (Ok df, mk_state (st_rasters s') (st_tables s') (Some df)
                    (st_open s') (st_ui s'))
      | (Raise e, s') => (Raise e, s')
      end
  end.

(** [df.columns = df.columns.str.strip()] *)
Definition strip_columns (df : DataFrame) : DataFrame :=
  mk_DataFrame (zip (strip <$> columns df) (snd <$> df_cols df)).

(** [df.head(n)] *)
Definition df_head (n : nat) (df : DataFrame) : DataFrame :=
  mk_DataFrame (prod_map id (take n) <$> df_cols df).

(** [folium.Map(location=..., zoom_start=..., control_scale=...)]: a
    location with a NaN in it is refused. *)
Definition folium_Map (location : spec_float * spec_float) (zoom_start : Z)
    (control_scale : bool) : result FoliumMap :=
  if Float.isnan location.1 || Float.isnan location.2 then Raise ValueError
  else Ok (mk_FoliumMap location zoom_start control_scale [] None None None).

(** [overlay.add_to(m)], [m.fit_bounds(b)], [LayerControl(...).add_to(m)] *)
Definition add_overlay (ov : ImageOverlay) (m : FoliumMap) : FoliumMap :=
  mk_FoliumMap (m_location m) (m_zoom_start m) (m_control_scale m)
    (m_overlays m ++ [ov]) (m_fit_bounds m) (m_layer_control m) (m_legend m).

Definition fit_bounds (b : bounds_4326) (m : FoliumMap) : FoliumMap :=
  mk_FoliumMap (m_location m) (m_zoom_start m) (m_control_scale m)
    (m_overlays m) (Some b) (m_layer_control m) (m_legend m).

Definition add_layer_control (collapsed : bool) (m : FoliumMap) : FoliumMap :=
  mk_FoliumMap (m_location m) (m_zoom_start m) (m_control_scale m)
    (m_overlays m) (m_fit_bounds m) (Some collapsed) (m_legend m).

(** [add_legend]: the fixed legend box, with its title. *)
Definition add_legend (m : FoliumMap) (title : string) : FoliumMap :=
  mk_FoliumMap (m_location m) (m_zoom_start m) (m_control_scale m)
    (m_overlays m) (m_fit_bounds m) (m_layer_control m) (Some title).

(** A decimal literal [n/d] as the nearest binary64. *)
Definition dec64 (n d : Z) : spec_float :=
  Float.div64 (Float.f64_of_Z n) (Float.f64_of_Z d).

Definition REQUIRED_COLUMNS : list string :=
  ["Season"; "Month"; "Area_km2"; "Latitude"; "Longitude"].

(** The message of the Map View when the geospatial imports failed. *)
Definition INSTALL_HINT : string :=
  "GeoTIFF overlay requires additional libraries.

Install with:
pip install folium streamlit-folium rasterio pillow numpy".

Definition MAP_VIEW_TITLE : string :=
  "Winter vs Summer Raster Comparison (Laing Dam, 2025)".

Definition winter_tif : string := "Winter_2025_Hyacinth_Map.tif".
Definition summer_tif : string := "Summer_2025_Hyacinth_Map.tif".

(** The import block at the head of the script: for each import of the
    [try], whether it succeeds when it is run. *)
Record imports : Type := mk_imports {
  numpy_ok : bool;                (* import numpy as np *)
  folium_ok : bool;               (* import folium *)
  streamlit_folium_ok : bool;     (* from streamlit_folium import st_folium *)
  rasterio_ok : bool;             (* import rasterio *)
  rasterio_warp_ok : bool         (* from rasterio.warp import transform_bounds *)
}.

(** [HAS_OVERLAY]: true unless one of the imports raised. *)
Definition has_overlay (env : imports) : bool :=
  numpy_ok env && folium_ok env && streamlit_folium_ok env
  && rasterio_ok env && rasterio_warp_ok env.

(** The name [folium] is bound when the imports up to [import folium]
    succeeded: the first failure leaves the [try]. *)
Definition folium_bound (env : imports) : bool := numpy_ok env && folium_ok env.

Section App.

(** [rasterio.warp.transform_bounds(src_crs, dst_crs, left, bottom,
    right, top)]: what it returns, or the exception it raises. *)
Variable transform_bounds :
  CRS → string → spec_float → spec_float → spec_float → spec_float →
  result (spec_float * spec_float * spec_float * spec_float).

(** [pd.to_numeric(series, errors="coerce")] *)
Variable pd_to_numeric : list value → list value.

(** The Seasonal Data Explorer view, which is presentation only. *)
Variable seasonal_data_explorer : DataFrame → M unit.

(** [df[c] = pd.to_numeric(df[c], errors="coerce")]. With a repeated
    label [df[c]] is a DataFrame, which [pd.to_numeric] refuses. *)
Definition assign_to_numeric (c : string) (df : DataFrame) : M DataFrame :=
  match filter (λ col, col.1 = c) (df_cols df) with
  | [_] =>
      mret (mk_DataFrame
              ((λ col, if bool_decide (col.1 = c)
                       then (col.1, pd_to_numeric col.2) else col)
                 <$> df_cols df))
  | _ => raise TypeError
  end.

Definition load_data : M DataFrame :=
  st_cache_data
    (df ← pd_read_csv "water_hyacinth_2025.csv";
     let df := strip_columns df in
     foldl (λ (acc : M DataFrame) c,
              df ← acc;
              if bool_decide (c ∈ columns df)
              then assign_to_numeric c df else mret df)
           (mret df) ["Area_km2"; "Latitude"; "Longitude"]).

Definition validate_columns (df : DataFrame) (required : list string)
  : M unit :=
  let missing := filter (λ c, c ∉ columns df) required in
  match missing with
  | [] => mret tt
  | _ =>
      st_error (FmtList "Missing required columns: " missing);;
      st_write_list "Columns found:" (columns df);;
      st_stop
  end.

Definition raster_bounds_4326 (tif_path : string) : M bounds_4326 :=
  '(west, south, east, north) ←
    with_rasterio_open tif_path (λ src,
      let b := ds_bounds src in
      let src_crs := ds_crs src in
      match src_crs with
      | Some crs =>
          if crs_truthy crs && negb (String.eqb (upper (crs_str crs)) "EPSG:4326")
          then lift (transform_bounds crs "EPSG:4326"
                       (left b) (bottom b) (right b) (top b))
          else mret (left b, bottom b, right b, top b)
      | None => mret (left b, bottom b, right b, top b)
      end);
  mret ((south, west), (north, east)).

Definition classify_raster_to_rgba (tif_path : string)
  : M (ndarray rgba_px * bounds_4326) :=
  bounds ← raster_bounds_4326 tif_path;
  with_rasterio_open tif_path (λ src,
    band ← ds_read src 1;
    let nodata := ds_nodata src in
    mret (classify_band band nodata, bounds)).

Definition build_raster_map (tif_path map_title : string)
    (opacity : spec_float) : M FoliumMap :=
  '(rgba, bounds) ← classify_raster_to_rgba tif_path;
  let '((south, west), (north, east)) := bounds in
  let center_lat := Float.div64 (Float.add64 south north) (Float.f64_of_Z 2) in
  let center_lon := Float.div64 (Float.add64 west east) (Float.f64_of_Z 2) in
  m ← lift (folium_Map (center_lat, center_lon) 12 true);
  let m := add_overlay
             (mk_ImageOverlay rgba bounds opacity map_title false 1) m in
  let m := fit_bounds bounds m in
  let m := add_layer_control true m in
  let m := add_legend m map_title in
  mret m.

Definition project_overview (data : DataFrame) : M unit :=
  st_title "Water Hyacinth Seasonal Monitoring – Laing Dam (2025)";;
  st_write "
    This Streamlit application explores the **seasonal distribution of water hyacinth**
    in **Laing Dam** during **Winter and Summer 2025**.

    Developed for the **CHPC Summer Coding School**, the app demonstrates
    data handling, filtering, visualisation, and raster-based mapping in Streamlit.
    ";;
  st_subheader "Study Area";;
  st_write "Laing Dam, Eastern Cape, South Africa";;
  st_subheader "Dataset Preview";;
  st_dataframe (df_head 10 data).

(** The Map View branch. [HAS_OVERLAY] is false when one of the imports
    of the geospatial libraries failed; [chosen_opacity] is the slider
    position. *)
Definition map_view (HAS_OVERLAY : bool) (chosen_opacity : spec_float)
  : M unit :=
  st_title MAP_VIEW_TITLE;;
  (if negb HAS_OVERLAY
   then st_error (Lit INSTALL_HINT);; st_stop
   else mret tt);;
  st_write "These maps are raster-only (no point markers). Colors represent two classes: **blue** (water/other) and **green** (water hyacinth).";;
  opacity ← st_slider "Overlay opacity" (dec64 0 1) (dec64 1 1)
              (dec64 85 100) (dec64 5 100) chosen_opacity;
  st_columns 2;;
  st_subheader "Winter 2025";;
  winter_map ← build_raster_map winter_tif "Winter 2025 – Hyacinth Classes" opacity;
  st_folium winter_map 650 550;;
  st_subheader "Summer 2025";;
  summer_map ← build_raster_map summer_tif "Summer 2025 – Hyacinth Classes" opacity;
  st_folium summer_map 650 550.

Definition contact : M unit :=
  st_header "Contact Information";;
  st_write "**Name:** Sinesipho Gom";;
  st_write "**Programme:** CHPC Summer Coding School";;
  st_write "**Institution:** University of Fort Hare".

(** The views after the table is loaded and validated. *)
Definition dispatch (menu : string) (data : DataFrame) (HAS_OVERLAY : bool)
    (chosen_opacity : spec_float) : M unit :=
  if String.eqb menu "Project Overview" then project_overview data
  else if String.eqb menu "Seasonal Data Explorer" then seasonal_data_explorer data
  else if String.eqb menu "Map View" then map_view HAS_OVERLAY chosen_opacity
  else if String.eqb menu "Contact" then contact
  else mret tt.

(** One run of the script. After the page configuration come the function
    definitions; Python evaluates the annotation [folium.Map] in the
    signature of [add_legend] when that definition is run, which needs the
    name [folium] bound. [HAS_OVERLAY] is what the import block leaves. *)
Definition app (env : imports) (chosen_menu : string)
    (chosen_opacity : spec_float) : M unit :=
  st_set_page_config "Water Hyacinth Seasonal Monitoring – Laing Dam (2025)" "wide";;
  (if folium_bound env then mret tt else raise (NameError "folium"));;
  st_sidebar_title "Navigation";;
  menu ← st_sidebar_radio "Go to:"
           ["Project Overview"; "Seasonal Data Explorer"; "Map View"; "Contact"]
           chosen_menu;
  data ← load_data;
  validate_columns data REQUIRED_COLUMNS;;
  dispatch menu data (has_overlay env) chosen_opacity.

End App.


(** ** The specification's vocabulary *)

(** The number a cell of the file, or a sentinel, stands for before any
    conversion: [m * 2^e], an infinity, or not a number. *)
Inductive exact : Type :=
  | ENaN
  | EInf (negative : bool)
  | EDyadic (m e : Z).

Definition exact_of_float (x : spec_float) : exact :=
  match x with
  | S754_nan => ENaN
  | S754_infinity s => EInf s
  | S754_zero _ => EDyadic 0 0
  | S754_finite s m e => EDyadic (cond_Zopp s (Z.pos m)) e
  end.

Definition exact_of_cell (c : cell) : exact :=
  match c with
  | IntCell z => EDyadic z 0
  | F32Cell x | F64Cell x => exact_of_float x
  end.

Definition exact_compare (a b : exact) : option comparison :=
  match a, b with
  | ENaN, _ | _, ENaN => None
  | EInf s1, EInf s2 =>
      Some (match s1, s2 with
            | true, false => Lt
            | false, true => Gt
            | _, _ => Eq
            end)
  | EInf s, EDyadic _ _ => Some (if s then Lt else Gt)
  | EDyadic _ _, EInf s => Some (if s then Gt else Lt)
  | EDyadic m1 e1, EDyadic m2 e2 =>
      let e := Z.min e1 e2 in
      Some (Z.compare (m1 * 2 ^ (e1 - e)) (m2 * 2 ^ (e2 - e)))
  end.

(** The tests of the specification on the band's own value [v]: [v] equals
    the declared sentinel or is NaN; [v <= 0]; [v > 0]. *)
Definition value_is_nodata (nodata : option spec_float) (c : cell) : bool :=
  match exact_of_cell c, nodata with
  | ENaN, _ => true
  | v, Some nd =>
      match exact_compare v (exact_of_float nd) with
      | Some Eq => true
      | _ => false
      end
  | _, None => false
  end.

Definition value_leb_zero (c : cell) : bool :=
  match exact_compare (exact_of_cell c) (EDyadic 0 0) with
  | Some (Lt | Eq) => true
  | _ => false
  end.

Definition value_gtb_zero (c : cell) : bool :=
  match exact_compare (exact_of_cell c) (EDyadic 0 0) with
  | Some Gt => true
  | _ => false
  end.

Definition TARGET_CRS : string := "EPSG:4326".

(** Reprojection is skipped: the CRS is absent (or falsy), or its string
    form in upper case is the target's. *)
Definition skips_reprojection (crs : option CRS) : bool :=
  match crs with
  | None => true
  | Some c => negb (crs_truthy c) || bool_decide (upper (crs_str c) = TARGET_CRS)
  end.

(** The spellings of the target in upper and lower case letters. *)
Definition EPSG_4326_SPELLINGS : list string :=
  e ← ["E"; "e"]; p ← ["P"; "p"]; s ← ["S"; "s"]; g ← ["G"; "g"];
  [e +:+ p +:+ s +:+ g +:+ ":4326"].

(** The native box, laid out [[south, west], [north, east]]. *)
Definition native_bounds (b : BoundingBox) : bounds_4326 :=
  ((bottom b, left b), (top b, right b)).

Definition south_west_north_east
    (t : spec_float * spec_float * spec_float * spec_float) : bounds_4326 :=
  let '(west, south, east, north) := t in ((south, west), (north, east)).

(** A raster with a proper extent, and a box with south < north and
    west < east. *)
Definition nondegenerate (b : BoundingBox) : Prop :=
  Float.ltb (left b) (right b) = true ∧ Float.ltb (bottom b) (top b) = true.

Definition ordered (bb : bounds_4326) : Prop :=
  Float.ltb bb.1.1 bb.2.1 = true ∧ Float.ltb bb.1.2 bb.2.2 = true.

(** What [raster_bounds_4326] and [classify_raster_to_rgba] return for an
    opened file, as functions of that file alone. *)
Definition bounds_of
    (transform_bounds : CRS → string → spec_float → spec_float → spec_float →
       spec_float → result (spec_float * spec_float * spec_float * spec_float))
    (src : dataset) : result bounds_4326 :=
  let b := ds_bounds src in
  match ds_crs src with
  | Some crs =>
      if skips_reprojection (Some crs) then Ok (native_bounds b)
      else
        match transform_bounds crs TARGET_CRS (left b) (bottom b) (right b) (top b) with
        | Ok t => Ok (south_west_north_east t)
        | Raise e => Raise e
        end
  | None => Ok (native_bounds b)
  end.

Definition overlay_of
    (transform_bounds : CRS → string → spec_float → spec_float → spec_float →
       spec_float → result (spec_float * spec_float * spec_float * spec_float))
    (src : dataset) : result (ndarray rgba_px * bounds_4326) :=
  match bounds_of transform_bounds src with
  | Raise e => Raise e
  | Ok bounds =>
      match ds_bands src !! 0%nat with
      | Some raw => Ok (classify_band raw (ds_nodata src), bounds)
      | None => Raise IndexError
      end
  end.

Definition on_file {A} (s : state) (path : string) (f : dataset → result A)
  : result A :=
  match st_rasters s !! path with
  | Some src => f src
  | None => Raise (RasterioIOError path)
  end.

Definition add_ui (l : list element) (s : state) : state :=
  mk_state (st_rasters s) (st_tables s) (st_cache s) (st_open s) (st_ui s ++ l).

(** ** Concrete rasters, tables and transforms used below *)

Definition f64 (z : Z) : spec_float := Float.f64_of_Z z.

(** The 2×2 scenario of the specification, in each cell encoding. *)
Definition scenario_band (mk : Z → cell) : ndarray cell :=
  mk_ndarray 2 2 (mk <$> [-9999; 0; 5; -3]).

Definition scenario_ds (mk : Z → cell) : dataset :=
  mk_dataset (mk_BoundingBox (f64 10) (f64 20) (f64 11) (f64 21))
             (Some (mk_CRS true "EPSG:4326"))
             (Some (f64 (-9999)))
             [scenario_band mk].

Definition scenario_state (mk : Z → cell) : state :=
  mk_state {[ "scenario.tif" := scenario_ds mk ]} ∅ None 0 [].

Definition cell_encodings : list (Z → cell) :=
  [IntCell; (λ z, F32Cell (Float.f32_of_Z z)); (λ z, F64Cell (Float.f64_of_Z z))].

(** The same file met later in a run: another raster on disk, handles
    open, elements already emitted. *)
Definition busy_state (mk : Z → cell) : state :=
  mk_state {[ "scenario.tif" := scenario_ds mk;
              "other.tif" := mk_dataset (ds_bounds (scenario_ds mk)) None None [] ]}
           ∅ None 2 [ESidebarTitle "Navigation"].

(** A byte raster whose sentinel is the positive value 255. *)
Definition byte_ds : dataset :=
  mk_dataset (mk_BoundingBox (f64 10) (f64 20) (f64 11) (f64 21))
             None (Some (f64 255))
             [mk_ndarray 1 3 [IntCell 255; IntCell 0; IntCell 7]].

Definition byte_state : state :=
  mk_state {[ "byte.tif" := byte_ds ]} ∅ None 0 [].

(** A 32-bit integer raster with a value next to its sentinel 16777216,
    and a [float64] raster with the value 2^-200 and, next to its sentinel
    0.1, the value 0.10000000001. *)
Definition int32_ds : dataset :=
  mk_dataset (mk_BoundingBox (f64 10) (f64 20) (f64 11) (f64 21))
             None (Some (f64 16777216))
             [mk_ndarray 1 2 [IntCell 16777217; IntCell 16777215]].

Definition float64_ds : dataset :=
  mk_dataset (mk_BoundingBox (f64 10) (f64 20) (f64 11) (f64 21))
             None (Some (dec64 1 10))
             [mk_ndarray 1 3 [F64Cell (S754_finite false 4503599627370496 (-252));
                              F64Cell (dec64 10000000001 100000000000);
                              F64Cell (dec64 1 2)]].

Definition precision_state : state :=
  mk_state {[ "int32.tif" := int32_ds; "float64.tif" := float64_ds ]}
           ∅ None 0 [].

(** A raster in the Pacific-centred Mercator CRS (central meridian 150°E),
    from about 170°E to about 170°W: its extent crosses the antimeridian. *)
Definition mercator_ds : dataset :=
  mk_dataset (mk_BoundingBox (f64 2226390) (f64 (-2000000))
                             (f64 4452780) (f64 (-1000000)))
             (Some (mk_CRS true "EPSG:3832"))
             None
             [mk_ndarray 1 1 [IntCell 1]].

Definition mercator_state : state :=
  mk_state {[ "pacific.tif" := mercator_ds ]} ∅ None 0 [].

(** Stand-ins for [transform_bounds]: one that returns its input; one that
    answers as the library does for an extent that crosses the antimeridian,
    with the western longitude above the eastern one; one that raises. *)
Definition tb_same (_ : CRS) (_ : string) (l b r t : spec_float)
  : result (spec_float * spec_float * spec_float * spec_float) :=
  Ok (l, b, r, t).

Definition tb_antimeridian (_ : CRS) (_ : string) (l b r t : spec_float)
  : result (spec_float * spec_float * spec_float * spec_float) :=
  Ok (f64 170, f64 (-18), f64 (-170), f64 (-9)).

Definition tb_fails (_ : CRS) (_ : string) (l b r t : spec_float)
  : result (spec_float * spec_float * spec_float * spec_float) :=
  Raise (WarpError "transform failed").

(** A transform whose answer is infinite, as for an extent outside the
    domain of the projection. *)
Definition tb_infinite (_ : CRS) (_ : string) (l b r t : spec_float)
  : result (spec_float * spec_float * spec_float * spec_float) :=
  Ok (S754_infinity false, S754_infinity false,
      S754_infinity true, S754_infinity false).

(** WGS84 with the axes in longitude, latitude order, which prints as
    [OGC:CRS84]. *)
Definition crs84_ds : dataset :=
  mk_dataset (mk_BoundingBox (f64 10) (f64 20) (f64 11) (f64 21))
             (Some (mk_CRS true "OGC:CRS84")) None [mk_ndarray 1 1 [IntCell 1]].

Definition crs84_state : state :=
  mk_state {[ "crs84.tif" := crs84_ds ]} ∅ None 0 [].

(** Tables: one whose header needs trimming, one without [Latitude]. *)
Definition good_table : DataFrame :=
  mk_DataFrame [(" Season", [VStr "Winter"]); ("Month ", [VStr "June"]);
                ("Area_km2", [VStr "1.5"]); (" Latitude ", [VStr "-32.9"]);
                ("Longitude", [VStr "27.5"])].

Definition no_latitude_table : DataFrame :=
  mk_DataFrame [("Season", [VStr "Winter"]); ("Month", [VStr "June"]);
                ("Area_km2", [VStr "1.5"]); ("Longitude", [VStr "27.5"])].

Definition table_state (t : DataFrame) : state :=
  mk_state ∅ {[ "water_hyacinth_2025.csv" := Parsed t ]} None 0 [].

Definition no_numeric (l : list value) : list value :=
  (λ _, VNum S754_nan) <$> l.

Definition no_explorer (_ : DataFrame) : M unit := mret tt.

Definition empty_state : state := mk_state ∅ ∅ None 0 [].

(** ** Further vocabulary: the Map View and the table *)

(** The texts of the Map View, and the elements it starts with when the
    libraries are present. *)
Definition MAP_VIEW_NOTE : string :=
  "These maps are raster-only (no point markers). Colors represent two classes: **blue** (water/other) and **green** (water hyacinth).".

Definition WINTER_TITLE : string := "Winter 2025 – Hyacinth Classes".
Definition SUMMER_TITLE : string := "Summer 2025 – Hyacinth Classes".

Definition map_view_intro : list element :=
  [ETitle MAP_VIEW_TITLE; EWrite (Lit MAP_VIEW_NOTE);
   ESlider "Overlay opacity" (dec64 0 1) (dec64 1 1) (dec64 85 100) (dec64 5 100);
   EColumns 2].

(** The centre of a box: the mean of its latitudes and the mean of its
    longitudes. *)
Definition centre_of (bounds : bounds_4326) : spec_float * spec_float :=
  let '((south, west), (north, east)) := bounds in
  (Float.div64 (Float.add64 south north) (Float.f64_of_Z 2),
   Float.div64 (Float.add64 west east) (Float.f64_of_Z 2)).

(** The file and the columns of [load_data]. *)
Definition CSV_PATH : string := "water_hyacinth_2025.csv".

Definition NUMERIC_COLUMNS : list string := ["Area_km2"; "Latitude"; "Longitude"].

(** How often a label occurs among the labels. *)
Definition occurrences (c : string) (labels : list string) : nat :=
  length (filter (λ l, l = c) labels).

(** The table whose columns named [c] went through [to_numeric]. *)
Definition numeric_column (to_numeric : list value → list value) (c : string)
    (cols : list (string * list value)) : list (string * list value) :=
  (λ col, if bool_decide (col.1 = c) then (col.1, to_numeric col.2) else col)
    <$> cols.

Definition numeric_columns (to_numeric : list value → list value)
    (cols : list (string * list value)) : list (string * list value) :=
  (λ col, if bool_decide (col.1 ∈ NUMERIC_COLUMNS)
          then (col.1, to_numeric col.2) else col) <$> cols.

(** What [load_data] computes from the table parsed from the file: a
    [TypeError] when a numeric label occurs more than once among the
    trimmed labels, else the table with its labels trimmed and its numeric
    columns converted. *)
Definition loaded_table (to_numeric : list value → list value)
    (raw : DataFrame) : result DataFrame :=
  if bool_decide
       (Forall (λ c, (occurrences c (strip <$> columns raw) ≤ 1)%nat)
               NUMERIC_COLUMNS)
  then Ok (mk_DataFrame (numeric_columns to_numeric (df_cols (strip_columns raw))))
  else Raise TypeError.

(** The state once [st.cache_data] has kept a table. *)
Definition with_cache (df : DataFrame) (s : state) : state :=
  mk_state (st_rasters s) (st_tables s) (Some df) (st_open s) (st_ui s).

(** The cache holds nothing but what [load_data] returned in an earlier
    run, for the file as it was then. *)
Definition cache_sound (to_numeric : list value → list value) (s : state)
  : Prop :=
  ∀ df, st_cache s = Some df → ∃ raw, loaded_table to_numeric raw = Ok df.

(** No character of [ws] starts the bytes [s]. *)
Definition starts_clean (ws : list (list ascii)) (s : list ascii) : Prop :=
  ∀ w k, w ∈ ws → s ≠ w ++ k.

(** ** Further concrete rasters and tables *)

Definition ramp_band : ndarray cell :=
  mk_ndarray 1 3 [IntCell 1; IntCell 2; IntCell 3].

(** The scenario raster with a second band. *)
Definition two_band_state : state :=
  mk_state {[ "scenario.tif" :=
                mk_dataset (ds_bounds (scenario_ds IntCell))
                           (ds_crs (scenario_ds IntCell))
                           (ds_nodata (scenario_ds IntCell))
                           [scenario_band IntCell; ramp_band] ]}
           ∅ None 0 [].

(** Both rasters of the Map View on disk, and the winter one alone. *)
Definition seasons_state : state :=
  mk_state {[ winter_tif := scenario_ds IntCell; summer_tif := byte_ds ]} ∅ None 0 [].

Definition winter_only_state : state :=
  mk_state {[ winter_tif := scenario_ds IntCell ]} ∅ None 0 [].

(** The winter raster in a projected CRS, and a winter raster without
    bands. *)
Definition projected_winter_state : state :=
  mk_state {[ winter_tif := mercator_ds ]} ∅ None 0 [].

Definition bandless_winter_state : state :=
  mk_state {[ winter_tif :=
                mk_dataset (ds_bounds (scenario_ds IntCell)) None None [] ]}
           ∅ None 0 [].

(** A CSV file of zero bytes, and a run that finds a table in the cache
    and no file. *)
Definition empty_file_state : state :=
  mk_state ∅ {[ "water_hyacinth_2025.csv" := EmptyFile ]} None 0 [].

Definition warm_state (df : DataFrame) : state :=
  mk_state ∅ ∅ (Some df) 0 [].

(** A header in which [Latitude] occurs twice once trimmed, and a table
    with a column more than required. *)
Definition duplicate_label_table : DataFrame :=
  mk_DataFrame [("Season", [VStr "Winter"]); ("Month", [VStr "June"]);
                ("Area_km2", [VStr "1.5"]); ("Latitude", [VStr "-32.9"]);
                (" Latitude", [VStr "-32.9"]); ("Longitude", [VStr "27.5"])].

Definition wide_table : DataFrame :=
  mk_DataFrame [("Notes", [VStr "clear sky"]); ("Longitude", [VStr "27.5"]);
                ("Latitude", [VStr "-32.9"]); ("Area_km2", [VStr "1.5"]);
                ("Month", [VStr "June"]); ("Season", [VStr "Winter"])].

(** A header as a spreadsheet may export it: a no-break space before
    [Season], an em space after [Month], a tab before [Latitude] and a next
    line character after it, a space after [Longitude]. *)
Definition spreadsheet_table : DataFrame :=
  mk_DataFrame [(chr 160 +:+ "Season", [VStr "Winter"]);
                ("Month" +:+ chr 8195, [VStr "June"]);
                ("Area_km2", [VStr "1.5"]);
                (chr 9 +:+ "Latitude" +:+ chr 133, [VStr "-32.9"]);
                ("Longitude ", [VStr "27.5"])].

(** The first element of a run, and the elements every run that reaches
    the table starts with. *)
Definition PAGE_CONFIG : element :=
  EPageConfig "Water Hyacinth Seasonal Monitoring – Laing Dam (2025)" "wide".

(** All the import outcomes that leave [folium] bound, or all libraries
    present. *)
Definition all_present : imports := mk_imports true true true true true.

Definition no_rasterio : imports := mk_imports true true true false false.

Definition no_numpy : imports := mk_imports false false false false false.

(** The elements every run of the script starts with. *)
Definition chrome : list element :=
  [EPageConfig "Water Hyacinth Seasonal Monitoring – Laing Dam (2025)" "wide";
   ESidebarTitle "Navigation";
   ESidebarRadio "Go to:"
     ["Project Overview"; "Seasonal Data Explorer"; "Map View"; "Contact"]].

(** The two elements of a failed validation. *)
Definition validation_report (missing found : list string) : list element :=
  [EError (FmtList "Missing required columns: " missing);
   EWriteList "Columns found:" found].

(** ** Floating-point comparisons against zero *)

Lemma leb_zero_not_gtb x : Float.leb x Float.zero = true → Float.gtb x Float.zero = false.
Proof. by destruct x as [[]|[]| |[] m e]. Qed.

Lemma not_leb_zero_gtb x :
  Float.isnan x = false → Float.leb x Float.zero = false → Float.gtb x Float.zero = true.
Proof. by destruct x as [[]|[]| |[] m e]. Qed.


Lemma is_nodata_NoData nodata x : is_nodata nodata x = true ↔ NoData nodata x.
Proof.
  unfold is_nodata, NoData. destruct nodata as [nd|].
  - rewrite orb_true_iff. split.
    + intros [H|H]; [left; eauto | by right].
    + intros [(nd' & [= <-] & H)|H]; auto.
  - split; [by right | by intros [(? & ? & _)|?]].
Qed.

Lemma background_xor_hyacinth nodata x :
  xorb (is_background nodata x) (is_hyacinth nodata x) = true.
Proof.
  unfold is_background, is_hyacinth.
  destruct (is_nodata nodata x) eqn:Hnd; simpl; [done|].
  destruct (Float.leb x Float.zero) eqn:Hle.
  - by rewrite leb_zero_not_gtb.
  - rewrite not_leb_zero_gtb; [done| |done].
    destruct nodata; simpl in Hnd; [by apply orb_false_iff in Hnd as [_ ?]|done].
Qed.

Lemma cell_rgba_class nodata x :
  cell_rgba nodata x =
    class_rgba (if is_hyacinth nodata x then Hyacinth else Background).
Proof.
  unfold cell_rgba. pose proof (background_xor_hyacinth nodata x) as H.
  destruct (is_hyacinth nodata x), (is_background nodata x); done.
Qed.

(** ** Arrays: the masks and the image, cell by cell *)

Lemma zip_with_fmap_same {A B C D} (f : B → C → D) (g : A → B) (h : A → C) l :
  zip_with f (g <$> l) (h <$> l) = (λ x, f (g x) (h x)) <$> l.
Proof. induction l as [|x l IH]; [done|]. cbn. by f_equal. Qed.

Lemma nodata_mask_data band nodata :
  nd_data (nodata_mask band nodata) = is_nodata nodata <$> nd_data band.
Proof.
  unfold nodata_mask, is_nodata. destruct nodata as [nd|]; simpl; [|done].
  exact (zip_with_fmap_same orb (λ x, Float.eqb x (Float.f32_of_f64 nd))
           Float.isnan _).
Qed.

Lemma background_mask_data band nodata :
  nd_data (background_mask band nodata) = is_background nodata <$> nd_data band.
Proof.
  unfold background_mask. simpl. rewrite nodata_mask_data.
  exact (zip_with_fmap_same orb (is_nodata nodata)
           (λ x, Float.leb x Float.zero) _).
Qed.

Lemma hyacinth_mask_data band nodata :
  nd_data (hyacinth_mask band nodata) = is_hyacinth nodata <$> nd_data band.
Proof.
  unfold hyacinth_mask. simpl. rewrite nodata_mask_data, <- list_fmap_compose.
  exact (zip_with_fmap_same andb (negb ∘ is_nodata nodata)
           (λ x, Float.gtb x Float.zero) _).
Qed.

Lemma paint_cells (nodata : option spec_float) (l : list spec_float) :
  zip_with (λ (m : bool) old, if m then HYACINTH_RGBA else old)
    (is_hyacinth nodata <$> l)
    (zip_with (λ (m : bool) old, if m then BACKGROUND_RGBA else old)
       (is_background nodata <$> l)
       (replicate (length l) (0, 0, 0, 0)))
  = cell_rgba nodata <$> l.
Proof.
  induction l as [|x l IH]; [done|].
  cbn [length replicate fmap list_fmap zip_with]. by rewrite IH.
Qed.

Lemma classify_band_h raw nodata : nd_h (classify_band raw nodata) = nd_h raw.
Proof. unfold classify_band, hyacinth_mask, nodata_mask. by destruct nodata. Qed.

Lemma classify_band_w raw nodata : nd_w (classify_band raw nodata) = nd_w raw.
Proof. unfold classify_band, hyacinth_mask, nodata_mask. by destruct nodata. Qed.

Lemma classify_band_shape raw nodata :
  shape (classify_band raw nodata) = shape raw.
Proof. unfold shape. by rewrite classify_band_h, classify_band_w. Qed.

Lemma classify_band_data raw nodata :
  nd_wf raw →
  nd_data (classify_band raw nodata)
  = (λ c, cell_rgba nodata (astype_float32 c)) <$> nd_data raw.
Proof.
  intros Hwf. unfold classify_band. cbn [shape nd_map nd_h nd_w].
  unfold setitem_mask, nd_zip. cbn [nd_data np_zeros].
  rewrite hyacinth_mask_data, background_mask_data. cbn [nd_data nd_map].
  rewrite <- Hwf, <- (length_fmap astype_float32), paint_cells.
  by rewrite <- list_fmap_compose.
Qed.

Lemma getitem_lookup {A} (a : ndarray A) i j x :
  getitem a i j = Some x →
  (i < nd_h a)%nat ∧ (j < nd_w a)%nat ∧ nd_data a !! (i * nd_w a + j)%nat = Some x.
Proof.
  unfold getitem. case_bool_decide as H; [|done]. by destruct H.
Qed.

Lemma classify_band_getitem raw nodata i j c :
  nd_wf raw →
  getitem raw i j = Some c →
  getitem (classify_band raw nodata) i j
  = Some (cell_rgba nodata (astype_float32 c)).
Proof.
  intros Hwf Hc. apply getitem_lookup in Hc as (Hi & Hj & Hc).
  unfold getitem.
  rewrite classify_band_h, classify_band_w, bool_decide_eq_true_2 by done.
  by rewrite classify_band_data, list_lookup_fmap, Hc.
Qed.

Lemma getitem_in_shape {A} (a : ndarray A) i j :
  nd_wf a → (i < nd_h a)%nat → (j < nd_w a)%nat → is_Some (getitem a i j).
Proof.
  intros Hwf Hi Hj. unfold getitem. rewrite bool_decide_eq_true_2 by done.
  apply lookup_lt_is_Some. rewrite Hwf. nia.
Qed.

(** ** Integers as floating-point values *)

Lemma pos_iter_xO_Z m p : Z.pos (Pos.iter xO m p) = Z.pos m * 2 ^ Z.pos p.
Proof.
  induction p as [|p IH] using Pos.peano_ind.
  - cbn. lia.
  - rewrite Pos.iter_succ, Pos2Z.inj_xO, IH, Pos2Z.inj_succ, Z.pow_succ_r by lia.
    lia.
Qed.

Lemma digits_iter_xO m p :
  digits2_pos (Pos.iter xO m p) = (digits2_pos m + p)%positive.
Proof.
  induction p as [|p IH] using Pos.peano_ind.
  - cbn. lia.
  - rewrite Pos.iter_succ. cbn [digits2_pos]. rewrite IH. lia.
Qed.

Lemma digits2_pos_bounds m :
  2 ^ (Z.pos (digits2_pos m) - 1) ≤ Z.pos m < 2 ^ Z.pos (digits2_pos m).
Proof.
  induction m as [m IH|m IH|]; cbn [digits2_pos].
  - rewrite Pos2Z.inj_succ. change (Z.pos m~1) with (2 * Z.pos m + 1).
    replace (Z.succ (Z.pos (digits2_pos m)) - 1)
      with (Z.succ (Z.pos (digits2_pos m) - 1)) by lia.
    rewrite !Z.pow_succ_r by lia.
    generalize dependent (2 ^ (Z.pos (digits2_pos m) - 1)).
    generalize dependent (2 ^ Z.pos (digits2_pos m)). lia.
  - rewrite Pos2Z.inj_succ. change (Z.pos m~0) with (2 * Z.pos m).
    replace (Z.succ (Z.pos (digits2_pos m)) - 1)
      with (Z.succ (Z.pos (digits2_pos m) - 1)) by lia.
    rewrite !Z.pow_succ_r by lia.
    generalize dependent (2 ^ (Z.pos (digits2_pos m) - 1)).
    generalize dependent (2 ^ Z.pos (digits2_pos m)). lia.
  - cbn. lia.
Qed.

Lemma digits2_pos_le m k :
  0 ≤ k → Z.pos m < 2 ^ k → Z.pos (digits2_pos m) ≤ k.
Proof.
  intros Hk Hm. destruct (digits2_pos_bounds m) as [Hlo _].
  destruct (Z.le_gt_cases (Z.pos (digits2_pos m)) k) as [|Hgt]; [done|].
  assert (2 ^ k ≤ 2 ^ (Z.pos (digits2_pos m) - 1))
    by (apply Z.pow_le_mono_r; lia).
  lia.
Qed.

Lemma canonical_round_aux prec emax s m e :
  canonical_mantissa prec emax m e = true →
  e ≤ emax - prec →
  binary_round_aux prec emax s (Z.pos m) e loc_Exact = S754_finite s m e.
Proof.
  unfold canonical_mantissa. intros Hc%Z.eqb_eq He.
  unfold binary_round_aux, shr_fexp. cbn [Zdigits2 shr_record_of_loc].
  rewrite Hc, Z.sub_diag. cbn [shr shr_m loc_of_shr_record round_nearest_even Zdigits2 shr_record_of_loc].
  rewrite Hc, Z.sub_diag. cbn [shr shr_m].
  by rewrite (proj2 (Z.leb_le _ _) He).
Qed.

(** An integer of at most [prec] digits is represented exactly. *)
Lemma binary_round_int prec emax s m :
  2 ≤ prec → prec ≤ emax → Z.pos (digits2_pos m) ≤ prec →
  ∃ mz,
    binary_round prec emax s m 0
      = S754_finite s mz (Z.pos (digits2_pos m) - prec)
    ∧ Z.pos mz = Z.pos m * 2 ^ (prec - Z.pos (digits2_pos m))
    ∧ Z.pos (digits2_pos mz) = prec.
Proof.
  intros Hprec Hemax Hd. unfold binary_round. rewrite Z.add_0_r.
  set (d := Z.pos (digits2_pos m)) in *.
  assert (fexp prec emax d = d - prec) as -> by (unfold fexp, emin; lia).
  unfold shl_align. rewrite Z.sub_0_r.
  destruct (d - prec) as [|p|p] eqn:Hp; [|lia|].
  - exists m. split; [|split].
    + apply canonical_round_aux; [|lia].
      unfold canonical_mantissa. apply Z.eqb_eq. fold d. unfold fexp, emin. lia.
    + replace (prec - d) with 0 by lia. lia.
    + fold d. lia.
  - exists (Pos.iter xO m p).
    assert (Z.pos (digits2_pos (Pos.iter xO m p)) = prec) as Hdig.
    { rewrite digits_iter_xO, Pos2Z.inj_add. fold d. lia. }
    split; [|split; [|done]].
    + apply canonical_round_aux; [|lia].
      unfold canonical_mantissa. apply Z.eqb_eq. rewrite Hdig.
      unfold fexp, emin. lia.
    + rewrite pos_iter_xO_Z. f_equal. f_equal. lia.
Qed.

Lemma f32_of_Z_pos m :
  Z.pos m < 2 ^ 24 →
  ∃ mz,
    Float.f32_of_Z (Z.pos m) = S754_finite false mz (Z.pos (digits2_pos m) - 24)
    ∧ Z.pos mz = Z.pos m * 2 ^ (24 - Z.pos (digits2_pos m))
    ∧ Z.pos (digits2_pos mz) = 24.
Proof.
  intros Hm. apply (binary_round_int 24 128 false m); [done|done|].
  by apply digits2_pos_le.
Qed.

Lemma f32_of_Z_neg m :
  Z.pos m < 2 ^ 24 →
  ∃ mz,
    Float.f32_of_Z (Z.neg m) = S754_finite true mz (Z.pos (digits2_pos m) - 24)
    ∧ Z.pos mz = Z.pos m * 2 ^ (24 - Z.pos (digits2_pos m))
    ∧ Z.pos (digits2_pos mz) = 24.
Proof.
  intros Hm. apply (binary_round_int 24 128 true m); [done|done|].
  by apply digits2_pos_le.
Qed.

(** The sign of an integer cell survives the conversion. *)
Lemma f32_of_Z_sign z :
  Z.abs z < 2 ^ 24 →
  Float.isnan (Float.f32_of_Z z) = false
  ∧ Float.leb (Float.f32_of_Z z) Float.zero = bool_decide (z ≤ 0)
  ∧ Float.gtb (Float.f32_of_Z z) Float.zero = bool_decide (0 < z).
Proof.
  intros Hz. destruct z as [|m|m].
  - done.
  - destruct (f32_of_Z_pos m) as (mz & -> & _); [lia|]. done.
  - destruct (f32_of_Z_neg m) as (mz & -> & _); [lia|]. done.
Qed.

Lemma finite_eqb_same s1 m1 e1 s2 m2 e2 :
  SFeqb (S754_finite s1 m1 e1) (S754_finite s2 m2 e2)
  = bool_decide (s1 = s2 ∧ m1 = m2 ∧ e1 = e2).
Proof.
  unfold SFeqb, SFcompare.
  destruct s1, s2;
    try (by rewrite bool_decide_eq_false_2 by (intros (? & ? & ?); congruence)).
  - destruct (Z.compare_spec e1 e2) as [->| |];
      try (by rewrite bool_decide_eq_false_2 by (intros (? & ? & ?); lia)).
    rewrite Pos.compare_cont_spec.
    destruct (Pos.compare_spec m1 m2) as [->| |]; cbn.
    + by rewrite bool_decide_eq_true_2.
    + by rewrite bool_decide_eq_false_2 by (intros (? & ? & ?); lia).
    + by rewrite bool_decide_eq_false_2 by (intros (? & ? & ?); lia).
  - destruct (Z.compare_spec e1 e2) as [->| |];
      try (by rewrite bool_decide_eq_false_2 by (intros (? & ? & ?); lia)).
    rewrite Pos.compare_cont_spec.
    destruct (Pos.compare_spec m1 m2) as [->| |]; cbn.
    + by rewrite bool_decide_eq_true_2.
    + by rewrite bool_decide_eq_false_2 by (intros (? & ? & ?); lia).
    + by rewrite bool_decide_eq_false_2 by (intros (? & ? & ?); lia).
Qed.

(** Two integers in the exact range are equal as [float32] only if they
    are equal. *)
Lemma f32_of_Z_eqb z n :
  Z.abs z < 2 ^ 24 → Z.abs n < 2 ^ 24 →
  Float.eqb (Float.f32_of_Z z) (Float.f32_of_Z n) = bool_decide (z = n).
Proof.
  assert (∀ m1 m2 mz1 mz2,
            Z.pos mz1 = Z.pos m1 * 2 ^ (24 - Z.pos (digits2_pos m1)) →
            Z.pos mz2 = Z.pos m2 * 2 ^ (24 - Z.pos (digits2_pos m2)) →
            mz1 = mz2 →
            Z.pos (digits2_pos m1) - 24 = Z.pos (digits2_pos m2) - 24 →
            m1 = m2) as Hinj.
  { intros m1 m2 mz1 mz2 H1 H2 -> Hd.
    replace (Z.pos (digits2_pos m2)) with (Z.pos (digits2_pos m1)) in H2 by lia.
    rewrite H1 in H2. apply Z.mul_reg_r in H2; [lia|].
    apply Z.pow_nonzero; [lia|].
    pose proof (digits2_pos_bounds m1). pose proof (digits2_pos_bounds m2).
    destruct (Z.le_gt_cases (Z.pos (digits2_pos m1)) 24); [lia|].
    exfalso. rewrite Z.pow_neg_r in H1 by lia. lia. }
  intros Hz Hn. unfold Float.eqb.
  destruct z as [|m1|m1], n as [|m2|m2]; try done.
  - destruct (f32_of_Z_pos m2) as (mz & -> & _); [lia|]. done.
  - destruct (f32_of_Z_neg m2) as (mz & -> & _); [lia|]. done.
  - destruct (f32_of_Z_pos m1) as (mz & -> & _); [lia|]. done.
  - destruct (f32_of_Z_pos m1) as (mz1 & -> & H1 & _); [lia|].
    destruct (f32_of_Z_pos m2) as (mz2 & -> & H2 & _); [lia|].
    rewrite finite_eqb_same. apply bool_decide_ext. split.
    + intros (_ & Hm & He). f_equal. by eapply Hinj.
    + intros [= ->]. split; [done|]. split; [lia|done].
  - destruct (f32_of_Z_pos m1) as (mz1 & -> & H1 & _); [lia|].
    destruct (f32_of_Z_neg m2) as (mz2 & -> & H2 & _); [lia|].
    rewrite finite_eqb_same.
    by rewrite !bool_decide_eq_false_2 by (try intros (? & ? & ?); congruence).
  - destruct (f32_of_Z_neg m1) as (mz & -> & _); [lia|]. done.
  - destruct (f32_of_Z_neg m1) as (mz1 & -> & H1 & _); [lia|].
    destruct (f32_of_Z_pos m2) as (mz2 & -> & H2 & _); [lia|].
    rewrite finite_eqb_same.
    by rewrite !bool_decide_eq_false_2 by (try intros (? & ? & ?); congruence).
  - destruct (f32_of_Z_neg m1) as (mz1 & -> & H1 & _); [lia|].
    destruct (f32_of_Z_neg m2) as (mz2 & -> & H2 & _); [lia|].
    rewrite finite_eqb_same. apply bool_decide_ext. split.
    + intros (_ & Hm & He). f_equal. by eapply Hinj.
    + intros [= ->]. split; [done|]. split; [lia|done].
Qed.

Lemma shr_29 mz :
  SpecFloat.iter_pos shr_1 29 (Build_shr_record (Z.pos (Pos.iter xO mz 29)) false false)
  = Build_shr_record (Z.pos mz) false false.
Proof. reflexivity. Qed.

(** Narrowing a 53-digit mantissa whose 29 low bits are zero is exact. *)
Lemma binary_round_narrow s mz e :
  Z.pos (digits2_pos mz) = 24 → -149 ≤ e + 29 ≤ 104 →
  binary_round 24 128 s (Pos.iter xO mz 29) e = S754_finite s mz (e + 29).
Proof.
  intros Hdig He. unfold binary_round.
  assert (Z.pos (digits2_pos (Pos.iter xO mz 29)) = 53) as Hdig53.
  { rewrite digits_iter_xO, Pos2Z.inj_add. lia. }
  rewrite Hdig53.
  assert (fexp 24 128 (53 + e) = e + 29) as Hfexp by (unfold fexp, emin; lia).
  rewrite Hfexp. unfold shl_align.
  replace (e + 29 - e) with 29 by lia.
  unfold binary_round_aux, shr_fexp. cbn [Zdigits2 shr_record_of_loc].
  rewrite Hdig53, Hfexp. replace (e + 29 - e) with 29 by lia.
  unfold shr at 1. rewrite shr_29.
  cbn [shr_m loc_of_shr_record round_nearest_even Zdigits2 shr_record_of_loc].
  rewrite Hdig.
  assert (fexp 24 128 (24 + (e + 29)) = e + 29) as -> by (unfold fexp, emin; lia).
  rewrite Z.sub_diag. cbn [shr shr_m].
  by rewrite (proj2 (Z.leb_le (e + 29) (128 - 24))) by lia.
Qed.

(** An integer sentinel in the exact range, given as a Python float, is
    compared as the [float32] of that integer. *)
Lemma f32_of_f64_of_Z z :
  Z.abs z < 2 ^ 24 →
  Float.f32_of_f64 (Float.f64_of_Z z) = Float.f32_of_Z z.
Proof.
  assert (∀ s m, Z.pos m < 2 ^ 24 →
            Float.f32_of_f64 (binary_round 53 1024 s m 0)
            = binary_round 24 128 s m 0) as Hsm.
  { intros s m Hm.
    pose proof (digits2_pos_le m 24 ltac:(lia) Hm) as Hd.
    destruct (binary_round_int 53 1024 s m) as (M & -> & HM & _);
      [lia|lia|lia|].
    destruct (binary_round_int 24 128 s m) as (mz & -> & Hmz & Hdig);
      [lia|lia|lia|].
    cbn [Float.f32_of_f64]. unfold Float.prec32, Float.emax32.
    assert (M = Pos.iter xO mz 29) as ->.
    { apply Pos2Z.inj_pos. rewrite pos_iter_xO_Z, HM, Hmz, <- Z.mul_assoc.
      rewrite <- Z.pow_add_r by lia. f_equal. f_equal. lia. }
    rewrite binary_round_narrow; [f_equal; lia|done|].
    pose proof (Pos2Z.is_pos (digits2_pos m)). lia. }
  intros Hz. destruct z as [|m|m]; [done| |]; apply Hsm; lia.
Qed.

(** A rounded value keeps the sign it was given, unless it is a NaN. *)
Lemma binary_round_sign prec emax s m e :
  match binary_round prec emax s m e with
  | S754_zero s' | S754_infinity s' | S754_finite s' _ _ => s' = s
  | S754_nan => True
  end.
Proof.
  unfold binary_round. destruct (shl_align _ _ _) as [mz ez].
  unfold binary_round_aux. destruct (shr_fexp _ _ _ _ _) as [mrs' e'].
  destruct (shr_fexp _ _ _ _ _) as [mrs'' e''].
  destruct (shr_m mrs''); [done| |done]. by destruct (_ <=? _).
Qed.

Lemma f32_of_f64_nonpositive nd :
  Float.leb nd Float.zero = true ∨ Float.isnan nd = true →
  Float.leb (Float.f32_of_f64 nd) Float.zero = true
  ∨ Float.isnan (Float.f32_of_f64 nd) = true.
Proof.
  destruct nd as [s|s| |s m e]; cbn [Float.f32_of_f64]; [done|done|done|].
  intros [Hle|Hnan]; [|done]. destruct s; [|done].
  pose proof (binary_round_sign Float.prec32 Float.emax32 true m e) as Hs.
  destruct (binary_round _ _ _ _ _) as [s'|s'| |s' m' e'];
    try subst s'; auto.
Qed.

Lemma eqb_nonpositive_leb x nd :
  Float.leb nd Float.zero = true ∨ Float.isnan nd = true →
  Float.eqb x nd = true → Float.leb x Float.zero = true.
Proof.
  intros [Hle|Hnan] Heq.
  - destruct nd as [s|[]| |[] m e]; try done;
      destruct x as [s'|[]| |[] m' e']; done.
  - destruct nd; try done. by destruct x.
Qed.

Lemma nonpositive_sentinel_cell nd x :
  Float.leb nd Float.zero = true ∨ Float.isnan nd = true →
  is_background (Some nd) x = is_background None x
  ∧ is_hyacinth (Some nd) x = is_hyacinth None x.
Proof.
  intros Hnd%f32_of_f64_nonpositive.
  unfold is_background, is_hyacinth, is_nodata.
  destruct (Float.eqb x (Float.f32_of_f64 nd)) eqn:Heq; [|done].
  pose proof (eqb_nonpositive_leb _ _ Hnd Heq) as Hle.
  rewrite Hle, (leb_zero_not_gtb _ Hle). cbn.
  by rewrite !orb_true_r, !andb_false_r.
Qed.

Lemma ndarray_eq {A} (a b : ndarray A) :
  nd_h a = nd_h b → nd_w a = nd_w b → nd_data a = nd_data b → a = b.
Proof. destruct a, b. cbn. by intros -> -> ->. Qed.

(** ** The raster functions as functions of the file *)

(** Leaving a [with] block gives back the state the block was entered in. *)
Ltac handle_released s := destruct s; reflexivity.

Section RasterEquations.

Variable transform_bounds :
  CRS → string → spec_float → spec_float → spec_float → spec_float →
  result (spec_float * spec_float * spec_float * spec_float).

Lemma raster_bounds_4326_eq tif_path s :
  raster_bounds_4326 transform_bounds tif_path s
  = (on_file s tif_path (bounds_of transform_bounds), s).
Proof.
  unfold raster_bounds_4326, on_file, with_rasterio_open, bounds_of,
    skips_reprojection, mbind, M_bind, mret, M_ret, lift.
  destruct (st_rasters s !! tif_path) as [src|]; [|done].
  destruct (ds_crs src) as [crs|]; cbn; [|handle_released s].
  destruct (crs_truthy crs); cbn; [|handle_released s].
  destruct (String.eqb_spec (upper (crs_str crs)) "EPSG:4326") as [He|Hne].
  - rewrite bool_decide_eq_true_2 by done. cbn. handle_released s.
  - rewrite bool_decide_eq_false_2 by done. cbn. unfold TARGET_CRS.
    destruct (transform_bounds _ _ _ _ _ _) as [[[[w so] e] n]|err]; cbn;
      handle_released s.
Qed.

Lemma classify_raster_to_rgba_eq tif_path s :
  classify_raster_to_rgba transform_bounds tif_path s
  = (on_file s tif_path (overlay_of transform_bounds), s).
Proof.
  unfold classify_raster_to_rgba, mbind, M_bind at 1.
  rewrite raster_bounds_4326_eq.
  unfold on_file, overlay_of, with_rasterio_open.
  destruct (st_rasters s !! tif_path) as [src|]; [|done].
  destruct (bounds_of transform_bounds src) as [b|e]; [|done].
  unfold ds_read, mbind, M_bind, mret, M_ret, raise.
  destruct (ds_bands src !! 0%nat) as [raw|]; cbn; handle_released s.
Qed.

End RasterEquations.

Lemma mask_h band nodata :
  nd_h (background_mask band nodata) = nd_h band
  ∧ nd_h (hyacinth_mask band nodata) = nd_h band.
Proof. unfold background_mask, hyacinth_mask, nodata_mask. by destruct nodata. Qed.

Lemma mask_w band nodata :
  nd_w (background_mask band nodata) = nd_w band
  ∧ nd_w (hyacinth_mask band nodata) = nd_w band.
Proof. unfold background_mask, hyacinth_mask, nodata_mask. by destruct nodata. Qed.

Lemma mask_getitem raw nodata i j c :
  getitem raw i j = Some c →
  let band := nd_map astype_float32 raw in
  getitem (background_mask band nodata) i j
    = Some (is_background nodata (astype_float32 c))
  ∧ getitem (hyacinth_mask band nodata) i j
    = Some (is_hyacinth nodata (astype_float32 c)).
Proof.
  intros Hc band. apply getitem_lookup in Hc as (Hi & Hj & Hc).
  destruct (mask_h band nodata) as [Hbh Hhh].
  destruct (mask_w band nodata) as [Hbw Hhw].
  unfold getitem. rewrite Hbh, Hhh, Hbw, Hhw. cbn [band nd_map nd_h nd_w].
  rewrite bool_decide_eq_true_2 by done.
  rewrite background_mask_data, hyacinth_mask_data. cbn [band nd_map nd_data].
  by rewrite !list_lookup_fmap, Hc.
Qed.

(** ** The classifier *)

Section Classifier.

Variable transform_bounds :
  CRS → string → spec_float → spec_float → spec_float → spec_float →
  result (spec_float * spec_float * spec_float * spec_float).


(** The classifier returns for every file that opens, whose bounds are
    obtained and that has a first band: the image of that band and the
    bounds, in the state it started from. *)
Lemma classify_returns tif_path s src raw bounds :
  st_rasters s !! tif_path = Some src →
  (raster_bounds_4326 transform_bounds tif_path s).1 = Ok bounds →
  ds_bands src !! 0%nat = Some raw →
  classify_raster_to_rgba transform_bounds tif_path s
  = (Ok (classify_band raw (ds_nodata src), bounds), s).
Proof.
  intros Hsrc Hb Hraw. rewrite raster_bounds_4326_eq in Hb.
  rewrite classify_raster_to_rgba_eq. unfold on_file, overlay_of in *.
  rewrite Hsrc in *. cbn in Hb. by rewrite Hb, Hraw.
Qed.

(** C1, as the code has it. For every pixel of the band that
    [classify_raster_to_rgba] reads, with [v] the value of the pixel once
    the band is converted to [float32] and with the sentinel compared in
    [float32] too: the pixel of the image is (0, 120, 255, 180) if and only
    if [v] is no-data (equal to the sentinel, or NaN) or [v <= 0], and it is
    (0, 200, 0, 220) if and only if [v] is not no-data and [v > 0]. For an
    integer cell and an integer sentinel below 2^24 in absolute value the
    conversion is exact, and these are the tests on the band's own value. *)
Theorem classify_pixel_colour_iff tif_path s src raw bounds :
  st_rasters s !! tif_path = Some src →
  (raster_bounds_4326 transform_bounds tif_path s).1 = Ok bounds →
  ds_bands src !! 0%nat = Some raw →
  nd_wf raw →
  ∃ rgba,
    classify_raster_to_rgba transform_bounds tif_path s = (Ok (rgba, bounds), s)
    ∧ shape rgba = shape raw
    ∧ ∀ i j, (i < nd_h raw)%nat → (j < nd_w raw)%nat →
        ∃ c px,
          getitem raw i j = Some c
          ∧ getitem rgba i j = Some px
          ∧ (let v := match c with
                      | IntCell z => Float.f32_of_Z z
                      | F32Cell x => x
                      | F64Cell x => Float.f32_of_f64 x
                      end in
             (px = (0, 120, 255, 180)
              ↔ NoData (ds_nodata src) v ∨ Float.leb v Float.zero = true)
             ∧ (px = (0, 200, 0, 220)
                ↔ ¬ NoData (ds_nodata src) v ∧ Float.gtb v Float.zero = true))
          ∧ (∀ z (n : option Z),
               c = IntCell z → Z.abs z < 2 ^ 24 →
               ds_nodata src = Float.f64_of_Z <$> n →
               (∀ k, n = Some k → Z.abs k < 2 ^ 24) →
               (px = (0, 120, 255, 180) ↔ n = Some z ∨ z ≤ 0)
               ∧ (px = (0, 200, 0, 220) ↔ n ≠ Some z ∧ 0 < z)).
Proof.
  intros Hsrc Hb Hraw Hwf. eexists. split; [by apply classify_returns|].
  split; [apply classify_band_shape|].
  intros i j Hi Hj.
  destruct (getitem_in_shape raw i j Hwf Hi Hj) as [c Hc].
  exists c, (cell_rgba (ds_nodata src) (astype_float32 c)).
  split; [done|]. split; [by apply classify_band_getitem|].
  rewrite cell_rgba_class. split.
  - change (match c with
            | IntCell z => Float.f32_of_Z z
            | F32Cell x => x
            | F64Cell x => Float.f32_of_f64 x
            end) with (astype_float32 c).
    set (v := astype_float32 c). set (nodata := ds_nodata src). cbn zeta.
    rewrite <- is_nodata_NoData.
    pose proof (background_xor_hyacinth nodata v) as Hx.
    unfold is_background, is_hyacinth in *.
    destruct (is_nodata nodata v), (Float.leb v Float.zero),
      (Float.gtb v Float.zero); cbn in *; try discriminate Hx;
      (split; split; intros; intuition congruence).
  - intros z n -> Hz Hnd Hn. rewrite Hnd. cbn [astype_float32].
    unfold is_hyacinth, is_nodata.
    destruct (f32_of_Z_sign z Hz) as (Hnan & _ & Hgt). rewrite Hgt, Hnan.
    destruct n as [k|]; cbn [fmap option_fmap option_map].
    + rewrite f32_of_f64_of_Z, f32_of_Z_eqb, orb_false_r by auto.
      repeat case_bool_decide; cbn; (split; split; intros;
        try discriminate; try lia; intuition (congruence || lia)).
    + repeat case_bool_decide; cbn; (split; split; intros;
        try discriminate; try lia; intuition (congruence || lia)).
Qed.

(** C1, as the claim states it on the value [v] of the band, fails. In a
    32-bit integer band with the sentinel 16777216 the value 16777217 is not
    the sentinel and is above 0, and in a [float64] band so are 2^-200 and,
    with the sentinel 0.1, the value 0.10000000001; all three pixels come
    out (0, 120, 255, 180). *)
Lemma classify_on_band_values_fails :
  ∃ ints floats bounds,
    classify_raster_to_rgba tb_same "int32.tif" precision_state
      = (Ok (ints, bounds), precision_state)
    ∧ classify_raster_to_rgba tb_same "float64.tif" precision_state
      = (Ok (floats, bounds), precision_state)
    ∧ Forall (λ '(rgba, src, i, j, c),
        (ds_bands src !! 0%nat) ≫= (λ band, getitem band i j) = Some c
        ∧ value_is_nodata (ds_nodata src) c = false
        ∧ value_leb_zero c = false
        ∧ value_gtb_zero c = true
        ∧ getitem rgba i j = Some (0, 120, 255, 180)
        ∧ ¬ (getitem rgba i j = Some (0, 200, 0, 220)
             ↔ value_is_nodata (ds_nodata src) c = false
               ∧ value_gtb_zero c = true))
      [(ints, int32_ds, 0%nat, 0%nat, IntCell 16777217);
       (floats, float64_ds, 0%nat, 0%nat,
        F64Cell (S754_finite false 4503599627370496 (-252)));
       (floats, float64_ds, 0%nat, 1%nat,
        F64Cell (dec64 10000000001 100000000000))].
Proof.
  eexists _, _, _. split; [vm_compute; reflexivity|].
  split; [vm_compute; reflexivity|].
  repeat apply Forall_cons_2; [..|apply Forall_nil_2];
    (do 5 (split; [vm_compute; reflexivity|]));
    intros [_ H]; (assert (Some (0, 120, 255, 180) = Some (0, 200, 0, 220)) as Hbad;
      [rewrite <- H by (split; vm_compute; reflexivity); vm_compute; reflexivity
      | discriminate Hbad]).
Qed.

(** C2. The background and hyacinth masks are exhaustive and mutually
    exclusive: at every pixel of the band exactly one of them is set, the
    pixel of the image carries the colour of that one class, and no pixel
    keeps the (0, 0, 0, 0) the image was initialised with. *)
Theorem classes_exhaustive_exclusive tif_path s src raw bounds :
  st_rasters s !! tif_path = Some src →
  (raster_bounds_4326 transform_bounds tif_path s).1 = Ok bounds →
  ds_bands src !! 0%nat = Some raw →
  nd_wf raw →
  ∃ rgba,
    classify_raster_to_rgba transform_bounds tif_path s = (Ok (rgba, bounds), s)
    ∧ ∀ i j, (i < nd_h raw)%nat → (j < nd_w raw)%nat →
        ∃ bg hy px,
          getitem (background_mask (nd_map astype_float32 raw) (ds_nodata src)) i j
            = Some bg
          ∧ getitem (hyacinth_mask (nd_map astype_float32 raw) (ds_nodata src)) i j
            = Some hy
          ∧ xorb bg hy = true
          ∧ getitem rgba i j = Some px
          ∧ px = class_rgba (if hy then Hyacinth else Background)
          ∧ (px = (0, 120, 255, 180) ∨ px = (0, 200, 0, 220))
          ∧ px ≠ (0, 0, 0, 0).
Proof.
  intros Hsrc Hb Hraw Hwf. eexists. split; [by apply classify_returns|].
  intros i j Hi Hj.
  destruct (getitem_in_shape raw i j Hwf Hi Hj) as [c Hc].
  destruct (mask_getitem raw (ds_nodata src) i j c Hc) as [Hbg Hhy].
  eexists _, _, _. split; [exact Hbg|]. split; [exact Hhy|].
  split; [apply background_xor_hyacinth|].
  split; [by apply classify_band_getitem|].
  rewrite cell_rgba_class.
  by destruct (is_hyacinth _ _); (split; [|split]); auto.
Qed.

(** C3. The 2×2 scenario: no-data -9999, values [[-9999, 0], [5, -3]], CRS
    EPSG:4326, bounds west 10, south 20, east 11, north 21. The classes are
    [[Background, Background], [Hyacinth, Background]], the pixel at (0, 0)
    is (0, 120, 255, 180), the pixel at (1, 0) is (0, 200, 0, 220), and the
    bounds come back as [[20, 10], [21, 11]]; this for integer, [float32]
    and [float64] cells alike. *)
Theorem scenario_2x2 :
  Forall (λ mk,
    ∃ rgba,
      classify_raster_to_rgba transform_bounds "scenario.tif" (scenario_state mk)
        = (Ok (rgba, ((f64 20, f64 10), (f64 21, f64 11))), scenario_state mk)
      ∧ rgba = nd_map class_rgba
                 (mk_ndarray 2 2 [Background; Background; Hyacinth; Background])
      ∧ getitem rgba 0 0 = Some (0, 120, 255, 180)
      ∧ getitem rgba 1 0 = Some (0, 200, 0, 220))
    cell_encodings.
Proof.
  repeat constructor; eexists; (split; [|split; [reflexivity|split]]);
    rewrite ?classify_raster_to_rgba_eq; vm_compute; reflexivity.
Qed.


(** C6. The classifier is a function of the file alone: two invocations
    that find the same file at the path return the same image and the same
    bounds (or raise the same error), whatever else differs between the
    two states, and an invocation leaves the state, the file included, as
    it found it; so a second invocation after the first repeats it. *)
Theorem classify_deterministic tif_path s1 s2 :
  st_rasters s1 !! tif_path = st_rasters s2 !! tif_path →
  (classify_raster_to_rgba transform_bounds tif_path s1).1
    = (classify_raster_to_rgba transform_bounds tif_path s2).1
  ∧ (classify_raster_to_rgba transform_bounds tif_path s1).2 = s1
  ∧ (classify_raster_to_rgba transform_bounds tif_path s2).2 = s2
  ∧ classify_raster_to_rgba transform_bounds tif_path
      (classify_raster_to_rgba transform_bounds tif_path s1).2
    = classify_raster_to_rgba transform_bounds tif_path s1.
Proof.
  intros Hfile. rewrite !classify_raster_to_rgba_eq. cbn [fst snd].
  unfold on_file. by rewrite Hfile.
Qed.

End Classifier.

(** ** The bounding box *)

Lemma skips_reprojection_spec crs :
  skips_reprojection crs = true
  ↔ crs = None
    ∨ ∃ c, crs = Some c
           ∧ (crs_truthy c = false ∨ upper (crs_str c) = "EPSG:4326").
Proof.
  unfold skips_reprojection, TARGET_CRS. destruct crs as [c|].
  - rewrite orb_true_iff, negb_true_iff, bool_decide_eq_true. split.
    + intros H. right. by exists c.
    + by intros [?|(c' & [= <-] & H)].
  - split; [by left | done].
Qed.

Lemma bounds_of_skip tb src :
  skips_reprojection (ds_crs src) = true →
  bounds_of tb src = Ok (native_bounds (ds_bounds src)).
Proof. unfold bounds_of. destruct (ds_crs src); [by intros ->|done]. Qed.

Lemma bounds_of_reproject tb src :
  skips_reprojection (ds_crs src) = false →
  ∃ crs, ds_crs src = Some crs
    ∧ bounds_of tb src =
        match tb crs "EPSG:4326" (left (ds_bounds src)) (bottom (ds_bounds src))
                 (right (ds_bounds src)) (top (ds_bounds src)) with
        | Ok t => Ok (south_west_north_east t)
        | Raise e => Raise e
        end.
Proof.
  unfold bounds_of. destruct (ds_crs src) as [crs|]; [|done].
  intros ->. by exists crs.
Qed.

(** C4. When the CRS of the raster already is the target EPSG:4326, and
    likewise when the raster has no CRS, [raster_bounds_4326] returns the
    native box as it is, [[bottom, left], [top, right]]: the transform is
    not applied, so the result is the same whatever the transform does. *)
Theorem bounds_unchanged_when_target_or_absent tif_path s src :
  st_rasters s !! tif_path = Some src →
  (ds_crs src = None
   ∨ ∃ crs, ds_crs src = Some crs
            ∧ (crs_truthy crs = false ∨ upper (crs_str crs) = "EPSG:4326")) →
  ∀ transform_bounds,
    raster_bounds_4326 transform_bounds tif_path s
    = (Ok ((bottom (ds_bounds src), left (ds_bounds src)),
           (top (ds_bounds src), right (ds_bounds src))), s).
Proof.
  intros Hsrc Hcrs tb. apply skips_reprojection_spec in Hcrs.
  rewrite raster_bounds_4326_eq. unfold on_file.
  by rewrite Hsrc, bounds_of_skip.
Qed.

(** C9, as the code has it. The box is always laid out
    [[south, west], [north, east]]: from the native bounds when no
    reprojection takes place, and then south < north and west < east hold
    for every non-degenerate raster; from the tuple (west, south, east,
    north) that [transform_bounds] returns otherwise, which the code does
    not reorder, so that the box is ordered exactly when that tuple is. *)
Theorem bounds_layout_and_order transform_bounds tif_path s src :
  st_rasters s !! tif_path = Some src →
  (skips_reprojection (ds_crs src) = true →
     raster_bounds_4326 transform_bounds tif_path s
       = (Ok ((bottom (ds_bounds src), left (ds_bounds src)),
              (top (ds_bounds src), right (ds_bounds src))), s)
     ∧ (nondegenerate (ds_bounds src) →
          ordered ((bottom (ds_bounds src), left (ds_bounds src)),
                   (top (ds_bounds src), right (ds_bounds src)))))
  ∧ (skips_reprojection (ds_crs src) = false →
       ∃ crs, ds_crs src = Some crs ∧
         ∀ west south east north,
           transform_bounds crs "EPSG:4326"
             (left (ds_bounds src)) (bottom (ds_bounds src))
             (right (ds_bounds src)) (top (ds_bounds src))
           = Ok (west, south, east, north) →
           raster_bounds_4326 transform_bounds tif_path s
             = (Ok ((south, west), (north, east)), s)
           ∧ (ordered ((south, west), (north, east))
              ↔ Float.ltb south north = true ∧ Float.ltb west east = true)).
Proof.
  intros Hsrc. rewrite raster_bounds_4326_eq. unfold on_file. rewrite Hsrc.
  split.
  - intros Hskip. rewrite bounds_of_skip by done. split; [done|].
    by intros [Hlr Hbt].
  - intros Hre.
    destruct (bounds_of_reproject transform_bounds src Hre) as (crs & Hcrs & ->).
    exists crs. split; [done|]. intros west south east north ->. done.
Qed.

(** C9, as the claim states it, fails: a non-degenerate raster in a
    projected CRS whose reprojected extent crosses the antimeridian gets a
    box with west above east. *)
Lemma bounds_west_above_east :
  nondegenerate (ds_bounds mercator_ds)
  ∧ ∃ bb,
      raster_bounds_4326 tb_antimeridian "pacific.tif" mercator_state
        = (Ok bb, mercator_state)
      ∧ ¬ ordered bb.
Proof.
  split; [by vm_compute|].
  eexists. split; [by vm_compute|]. by intros [_ H]; vm_compute in H.
Qed.

Lemma spellings_upper :
  Forall (λ spelling, upper spelling = "EPSG:4326") EPSG_4326_SPELLINGS.
Proof. vm_compute. repeat constructor. Qed.

(** C10. Whether to reproject is decided on the string form of the CRS,
    put in upper case: the native box is returned when the CRS is absent or
    falsy or its string form in upper case is "EPSG:4326", which it is for
    every spelling of EPSG:4326 in upper and lower case letters; every other
    CRS, whatever it denotes, goes through [transform_bounds] towards
    "EPSG:4326", and the result (or the error) is the transform's. *)
Theorem reprojection_decided_by_string transform_bounds tif_path s src :
  st_rasters s !! tif_path = Some src →
  ((ds_crs src = None
    ∨ ∃ crs, ds_crs src = Some crs
             ∧ (crs_truthy crs = false ∨ upper (crs_str crs) = "EPSG:4326")) →
   raster_bounds_4326 transform_bounds tif_path s
     = (Ok (native_bounds (ds_bounds src)), s))
  ∧ (∀ crs, ds_crs src = Some crs → crs_truthy crs = true →
       upper (crs_str crs) ≠ "EPSG:4326" →
       raster_bounds_4326 transform_bounds tif_path s
       = (match transform_bounds crs "EPSG:4326"
                  (left (ds_bounds src)) (bottom (ds_bounds src))
                  (right (ds_bounds src)) (top (ds_bounds src)) with
          | Ok (west, south, east, north) => Ok ((south, west), (north, east))
          | Raise e => Raise e
          end, s))
  ∧ (∀ crs, ds_crs src = Some crs →
       crs_str crs ∈ EPSG_4326_SPELLINGS →
       raster_bounds_4326 transform_bounds tif_path s
         = (Ok (native_bounds (ds_bounds src)), s)).
Proof.
  intros Hsrc. rewrite raster_bounds_4326_eq. unfold on_file. rewrite Hsrc.
  split; [|split].
  - intros Hcrs. apply skips_reprojection_spec in Hcrs.
    by rewrite bounds_of_skip.
  - intros crs Hcrs Htruthy Hne.
    assert (skips_reprojection (ds_crs src) = false) as Hre.
    { apply not_true_is_false. rewrite skips_reprojection_spec, Hcrs.
      intros [?|(c & [= <-] & [?|?])]; congruence. }
    destruct (bounds_of_reproject transform_bounds src Hre) as (c & Hc & ->).
    rewrite Hcrs in Hc. injection Hc as <-.
    by destruct (transform_bounds _ _ _ _ _ _) as [[[[w so] e] n]|err].
  - intros crs Hcrs Hspelling.
    pose proof spellings_upper as Hup. rewrite Forall_forall in Hup.
    rewrite bounds_of_skip; [done|]. apply skips_reprojection_spec.
    right. exists crs. split; [done|]. right. by apply Hup.
Qed.

(** ** The Map View and raster read errors *)

Lemma no_error_element (l : list element) :
  forallb (λ e, match e with EError _ => false | _ => true end) l = true →
  ∀ t, EError t ∉ l.
Proof.
  intros Hall t Hin. rewrite forallb_forall in Hall.
  apply list_elem_of_In, Hall in Hin. discriminate Hin.
Qed.

(** Runs the Streamlit calls at the head of a script. *)
Ltac run_calls :=
  unfold mbind, M_bind, mret, M_ret, st_title, st_header, st_subheader,
    st_write, st_write_list, st_error, st_columns, st_slider, st_stop,
    st_set_page_config, st_sidebar_title, st_sidebar_radio, st_dataframe,
    st_folium, raise, emit;
  cbn [negb st_rasters st_tables st_cache st_open st_ui].

Ltac run_script := run_calls; run_calls.

Section MapView.

Variable transform_bounds :
  CRS → string → spec_float → spec_float → spec_float → spec_float →
  result (spec_float * spec_float * spec_float * spec_float).

(** [build_raster_map] as a function of the file. *)
Lemma build_raster_map_eq tif_path map_title opacity s :
  build_raster_map transform_bounds tif_path map_title opacity s
  = (match on_file s tif_path (overlay_of transform_bounds) with
     | Raise e => Raise e
     | Ok (rgba, bounds) =>
         match folium_Map (centre_of bounds) 12 true with
         | Raise e => Raise e
         | Ok m =>
             Ok (add_legend
                   (add_layer_control true
                      (fit_bounds bounds
                         (add_overlay
                            (mk_ImageOverlay rgba bounds opacity map_title false 1)
                            m)))
                   map_title)
         end
     end, s).
Proof.
  unfold build_raster_map, mbind, M_bind.
  rewrite classify_raster_to_rgba_eq.
  destruct (on_file s tif_path _) as [[rgba [[so w] [n e]]]|err]; [|done].
  unfold lift, centre_of. by destruct (folium_Map _ 12 true) as [m|err].
Qed.

Lemma build_raster_map_raises tif_path map_title opacity s e :
  (classify_raster_to_rgba transform_bounds tif_path s).1 = Raise e →
  build_raster_map transform_bounds tif_path map_title opacity s = (Raise e, s).
Proof.
  rewrite build_raster_map_eq, classify_raster_to_rgba_eq. cbn [fst].
  by intros ->.
Qed.

Lemma build_raster_map_frame tif_path map_title opacity s s' :
  st_rasters s' = st_rasters s →
  build_raster_map transform_bounds tif_path map_title opacity s'
  = ((build_raster_map transform_bounds tif_path map_title opacity s).1, s').
Proof.
  intros Hs. rewrite !build_raster_map_eq. unfold on_file. by rewrite Hs.
Qed.

Lemma map_view_stops_without_overlay opacity s :
  map_view transform_bounds false opacity s
  = (Raise StopException,
     add_ui [ETitle MAP_VIEW_TITLE; EError (Lit INSTALL_HINT)] s).
Proof.
  unfold map_view, add_ui. destruct s as [rasters tables cache n ui].
  run_script. by rewrite <- app_assoc.
Qed.

(** The Map View with the libraries present, by the outcome of the two
    maps. *)
Lemma map_view_run opacity s :
  map_view transform_bounds true opacity s
  = match (build_raster_map transform_bounds winter_tif WINTER_TITLE opacity s).1 with
    | Raise e =>
        (Raise e, add_ui (map_view_intro ++ [ESubheader "Winter 2025"]) s)
    | Ok winter_map =>
        match (build_raster_map transform_bounds summer_tif SUMMER_TITLE opacity s).1 with
        | Raise e =>
            (Raise e,
             add_ui (map_view_intro
                     ++ [ESubheader "Winter 2025"; EFolium winter_map 650 550;
                         ESubheader "Summer 2025"]) s)
        | Ok summer_map =>
            (Ok (),
             add_ui (map_view_intro
                     ++ [ESubheader "Winter 2025"; EFolium winter_map 650 550;
                         ESubheader "Summer 2025"; EFolium summer_map 650 550]) s)
        end
    end.
Proof.
  destruct s as [rasters tables cache n ui]. unfold map_view. run_script.
  rewrite (build_raster_map_frame winter_tif _ _ (mk_state rasters tables cache n ui))
    by done.
  unfold WINTER_TITLE, SUMMER_TITLE.
  destruct (build_raster_map transform_bounds winter_tif _ opacity _).1
    as [winter_map|e]; cbn [st_rasters st_tables st_cache st_open st_ui].
  - rewrite (build_raster_map_frame summer_tif _ _ (mk_state rasters tables cache n ui))
      by done.
    destruct (build_raster_map transform_bounds summer_tif _ opacity _).1
      as [summer_map|e]; unfold add_ui, map_view_intro; cbn;
      by rewrite <- !app_assoc.
  - unfold add_ui, map_view_intro. cbn. by rewrite <- !app_assoc.
Qed.

Lemma map_view_winter_missing opacity s :
  st_rasters s !! winter_tif = None →
  ∃ ui,
    map_view transform_bounds true opacity s
      = (Raise (RasterioIOError winter_tif), add_ui ui s)
    ∧ ∀ t, EError t ∉ ui.
Proof.
  intros Hnone. eexists. split.
  - rewrite map_view_run, build_raster_map_eq. unfold on_file.
    rewrite Hnone. cbn [fst]. reflexivity.
  - by apply no_error_element.
Qed.

(** With the libraries present the Map View emits no error element, on any
    path. *)
Lemma map_view_no_error_element opacity s :
  ∃ ui,
    (map_view transform_bounds true opacity s).2 = add_ui ui s
    ∧ ∀ t, EError t ∉ ui.
Proof.
  rewrite map_view_run.
  destruct (build_raster_map transform_bounds winter_tif _ opacity s).1
    as [winter_map|e];
    [destruct (build_raster_map transform_bounds summer_tif _ opacity s).1
       as [summer_map|e]|];
    (eexists; split; [reflexivity | by apply no_error_element]).
Qed.

End MapView.

(** C8, as the code has it. An error of the raster read is caught nowhere.
    A file that cannot be opened makes [raster_bounds_4326] raise; an error
    met while the bounds are computed, the one of [transform_bounds]
    included, leaves [classify_raster_to_rgba]; an error of the classifier,
    the one of reading the band included, leaves [build_raster_map]. In the
    Map View with the libraries present, an error of the winter map ends the
    view after the winter heading, and an error of the summer map ends it
    after the winter map and the summer heading: the view ends with that
    very exception, and on no path has it emitted an error element of its
    own. Only when the geospatial libraries are unavailable does the Map
    View show its message and call [st.stop()]. *)
Theorem read_errors_reach_the_caller transform_bounds opacity s :
  (∀ tif_path, st_rasters s !! tif_path = None →
     raster_bounds_4326 transform_bounds tif_path s
       = (Raise (RasterioIOError tif_path), s))
  ∧ (∀ tif_path e,
       (raster_bounds_4326 transform_bounds tif_path s).1 = Raise e →
       classify_raster_to_rgba transform_bounds tif_path s = (Raise e, s)
       ∧ ∀ map_title,
           build_raster_map transform_bounds tif_path map_title opacity s
           = (Raise e, s))
  ∧ map_view transform_bounds false opacity s
      = (Raise StopException,
         add_ui [ETitle MAP_VIEW_TITLE; EError (Lit INSTALL_HINT)] s)
  ∧ (st_rasters s !! winter_tif = None →
       ∃ ui,
         map_view transform_bounds true opacity s
           = (Raise (RasterioIOError winter_tif), add_ui ui s)
         ∧ ∀ t, EError t ∉ ui)
  ∧ (∀ tif_path map_title e,
       (classify_raster_to_rgba transform_bounds tif_path s).1 = Raise e →
       build_raster_map transform_bounds tif_path map_title opacity s
       = (Raise e, s))
  ∧ (∀ e,
       (build_raster_map transform_bounds winter_tif WINTER_TITLE opacity s).1
         = Raise e →
       map_view transform_bounds true opacity s
       = (Raise e, add_ui (map_view_intro ++ [ESubheader "Winter 2025"]) s))
  ∧ (∀ winter_map e,
       (build_raster_map transform_bounds winter_tif WINTER_TITLE opacity s).1
         = Ok winter_map →
       (build_raster_map transform_bounds summer_tif SUMMER_TITLE opacity s).1
         = Raise e →
       map_view transform_bounds true opacity s
       = (Raise e,
          add_ui (map_view_intro
                  ++ [ESubheader "Winter 2025"; EFolium winter_map 650 550;
                      ESubheader "Summer 2025"]) s))
  ∧ (∃ ui,
       (map_view transform_bounds true opacity s).2 = add_ui ui s
       ∧ ∀ t, EError t ∉ ui).
Proof.
  split_and!.
  - intros tif_path Hnone. rewrite raster_bounds_4326_eq. unfold on_file.
    by rewrite Hnone.
  - intros tif_path e He.
    assert (classify_raster_to_rgba transform_bounds tif_path s = (Raise e, s))
      as Hc.
    { rewrite raster_bounds_4326_eq in He. rewrite classify_raster_to_rgba_eq.
      unfold on_file, overlay_of in *. cbn in He.
      destruct (st_rasters s !! tif_path) as [src|]; [by rewrite He | congruence]. }
    split; [done|]. intros map_title. apply build_raster_map_raises.
    by rewrite Hc.
  - apply map_view_stops_without_overlay.
  - apply map_view_winter_missing.
  - intros tif_path map_title e. apply build_raster_map_raises.
  - intros e He. by rewrite map_view_run, He.
  - intros winter_map e Hw Hs. by rewrite map_view_run, Hw, Hs.
  - apply map_view_no_error_element.
Qed.

(** C8, as the claim states it, fails: with the libraries present and the
    winter raster missing, the read fails and the Map View neither shows an
    error element nor stops the script; the exception leaves the script. *)
Lemma map_view_read_failure_unreported :
  (raster_bounds_4326 tb_same winter_tif empty_state).1
    = Raise (RasterioIOError winter_tif)
  ∧ ¬ ∃ s',
        map_view tb_same true (dec64 85 100) empty_state
          = (Raise StopException, s')
        ∧ ∃ t, EError t ∈ st_ui s'.
Proof.
  split; [by vm_compute|].
  intros (s' & Hrun & _).
  destruct (map_view_winter_missing tb_same (dec64 85 100) empty_state)
    as (ui & Hmv & _); [done|].
  rewrite Hmv in Hrun. discriminate Hrun.
Qed.

(** ** Loading and validating the table *)

Lemma columns_strip_columns df :
  columns (strip_columns df) = strip <$> columns df.
Proof.
  unfold strip_columns, columns. cbn [df_cols].
  apply fst_zip. by rewrite !length_fmap.
Qed.

Section Table.

Variable pd_to_numeric : list value → list value.

Lemma occurrences_cols c (cols : list (string * list value)) :
  length (filter (λ col, col.1 = c) cols) = occurrences c (cols.*1).
Proof.
  unfold occurrences. induction cols as [|[l v] cols IH]; [done|].
  cbn [fmap list_fmap fst]. rewrite !filter_cons. cbn [fst].
  destruct (decide (l = c)); cbn [length]; by rewrite IH.
Qed.

Lemma occurrences_zero c labels : c ∉ labels → occurrences c labels = 0%nat.
Proof.
  unfold occurrences. intros Hout.
  induction labels as [|l labels IH]; [done|].
  apply not_elem_of_cons in Hout as [Hne Hout].
  rewrite filter_cons_False by congruence. by apply IH.
Qed.

Lemma occurrences_pos c labels : c ∈ labels → (0 < occurrences c labels)%nat.
Proof.
  unfold occurrences. intros Hin.
  assert (c ∈ filter (λ l, l = c) labels) as Hf
    by by apply list_elem_of_filter.
  destruct (filter _ labels); [by apply elem_of_nil in Hf | cbn; lia].
Qed.

Lemma numeric_column_labels c cols :
  (numeric_column pd_to_numeric c cols).*1 = cols.*1.
Proof.
  unfold numeric_column. rewrite <- list_fmap_compose.
  apply list_fmap_ext. intros _ [l v] _. cbn. by case_bool_decide.
Qed.

Lemma numeric_columns_labels cols :
  (numeric_columns pd_to_numeric cols).*1 = cols.*1.
Proof.
  unfold numeric_columns. rewrite <- list_fmap_compose.
  apply list_fmap_ext. intros _ [l v] _. cbn. by case_bool_decide.
Qed.

Lemma numeric_column_absent c cols :
  c ∉ cols.*1 → numeric_column pd_to_numeric c cols = cols.
Proof.
  unfold numeric_column. intros Hout.
  induction cols as [|[l v] cols IH]; [done|].
  cbn [fmap list_fmap fst] in *. apply not_elem_of_cons in Hout as [Hne Hout].
  cbn. rewrite bool_decide_eq_false_2 by congruence. f_equal. by apply IH.
Qed.

(** One turn of the loop of [load_data]. *)
Lemma to_numeric_step c df s :
  (if bool_decide (c ∈ columns df)
   then assign_to_numeric pd_to_numeric c df else mret df) s
  = (if bool_decide (occurrences c (columns df) ≤ 1)%nat
     then Ok (mk_DataFrame (numeric_column pd_to_numeric c (df_cols df)))
     else Raise TypeError, s).
Proof.
  unfold columns. case_bool_decide as Hin.
  - pose proof (occurrences_pos _ _ Hin) as Hpos.
    unfold assign_to_numeric. rewrite <- occurrences_cols in *.
    destruct (filter _ (df_cols df)) as [|col [|col' l]]; cbn in *; [lia|done|].
    rewrite bool_decide_eq_false_2 by lia. done.
  - rewrite occurrences_zero, bool_decide_eq_true_2 by (done || lia).
    rewrite numeric_column_absent by done. by destruct df.
Qed.

Lemma numeric_column_thrice cols :
  numeric_column pd_to_numeric "Longitude"
    (numeric_column pd_to_numeric "Latitude"
       (numeric_column pd_to_numeric "Area_km2" cols))
  = numeric_columns pd_to_numeric cols.
Proof.
  unfold numeric_column, numeric_columns, NUMERIC_COLUMNS.
  rewrite <- !list_fmap_compose. apply list_fmap_ext. intros _ [l v] _. cbn.
  repeat (case_bool_decide; cbn [fst snd] in * ); simplify_eq; try done;
    exfalso; rewrite ?elem_of_cons, ?elem_of_nil in *; intuition congruence.
Qed.

(** The body of [load_data], under the cache, on a file that parses. *)
Lemma to_numeric_loop raw s :
  foldl (λ (acc : M DataFrame) c,
           df ← acc;
           if bool_decide (c ∈ columns df)
           then assign_to_numeric pd_to_numeric c df else mret df)
        (mret (strip_columns raw)) ["Area_km2"; "Latitude"; "Longitude"] s
  = (loaded_table pd_to_numeric raw, s).
Proof.
  unfold loaded_table. cbn [foldl].
  unfold mbind at 1 2 3, M_bind at 1 2 3. cbn [mret M_ret].
  rewrite <- columns_strip_columns. set (df0 := strip_columns raw).
  assert (∀ c, c ∈ NUMERIC_COLUMNS →
            ¬ (occurrences c (columns df0) ≤ 1)%nat →
            ¬ Forall (λ c, (occurrences c (columns df0) ≤ 1)%nat) NUMERIC_COLUMNS)
    as Hdup.
  { intros c Hc Hmany HF. rewrite Forall_forall in HF. by apply Hmany, HF. }
  rewrite (to_numeric_step "Area_km2" df0 s).
  case_bool_decide as H1; cycle 1.
  { rewrite bool_decide_eq_false_2; [done|].
    by apply (Hdup "Area_km2"); [apply list_elem_of_here|]. }
  rewrite to_numeric_step.
  case_bool_decide as H2; unfold columns in H2; cbn [df_cols] in H2;
    rewrite numeric_column_labels in H2; cycle 1.
  { rewrite bool_decide_eq_false_2; [done|].
    by apply (Hdup "Latitude");
      [apply list_elem_of_further, list_elem_of_here|]. }
  rewrite to_numeric_step.
  case_bool_decide as H3; unfold columns in H3; cbn [df_cols] in H3;
    rewrite !numeric_column_labels in H3; cycle 1.
  { rewrite bool_decide_eq_false_2; [done|].
    by apply (Hdup "Longitude");
      [do 2 apply list_elem_of_further; apply list_elem_of_here|]. }
  rewrite bool_decide_eq_true_2
    by (unfold NUMERIC_COLUMNS; repeat apply Forall_cons_2; done).
  cbn [df_cols]. by rewrite numeric_column_thrice.
Qed.

(** [load_data], by the cache and the file. *)
Lemma load_data_run s :
  load_data pd_to_numeric s
  = match st_cache s with
    | Some df => (Ok df, s)
    | None =>
        match st_tables s !! CSV_PATH with
        | Some (Parsed raw) =>
            match loaded_table pd_to_numeric raw with
            | Ok df => (Ok df, with_cache df s)
            | Raise e => (Raise e, s)
            end
        | Some EmptyFile => (Raise EmptyDataError, s)
        | Some Malformed => (Raise ParserError, s)
        | Some BadEncoding => (Raise UnicodeDecodeError, s)
        | None => (Raise (FileNotFoundError CSV_PATH), s)
        end
    end.
Proof.
  unfold load_data, st_cache_data, CSV_PATH.
  destruct (st_cache s) as [df|]; [done|].
  unfold mbind at 1, M_bind at 1, pd_read_csv.
  destruct (st_tables s !! _) as [[raw| | |]|]; try done.
  rewrite to_numeric_loop. by destruct (loaded_table pd_to_numeric raw).
Qed.

Lemma loaded_table_columns raw df :
  loaded_table pd_to_numeric raw = Ok df → columns df = strip <$> columns raw.
Proof.
  unfold loaded_table. case_bool_decide; [|done]. intros [= <-].
  unfold columns at 1. cbn [df_cols]. rewrite numeric_columns_labels.
  apply columns_strip_columns.
Qed.

(** [load_data] looks at the cache and the tables only, and changes the
    cache only. *)
Lemma load_data_frame ui s :
  load_data pd_to_numeric (add_ui ui s)
  = ((load_data pd_to_numeric s).1, add_ui ui (load_data pd_to_numeric s).2).
Proof.
  rewrite !load_data_run. destruct s as [rasters tables cache n ui0].
  cbn [add_ui st_cache st_tables st_rasters st_open st_ui].
  destruct cache as [df|]; [done|].
  destruct (tables !! CSV_PATH) as [[raw| | |]|]; try done.
  by destruct (loaded_table pd_to_numeric raw).
Qed.

End Table.

Lemma validate_columns_eq df required s :
  validate_columns df required s
  = match filter (λ c, c ∉ columns df) required with
    | [] => (Ok (), s)
    | missing =>
        (Raise StopException,
         add_ui (validation_report missing (columns df)) s)
    end.
Proof.
  unfold validate_columns.
  destruct (filter _ required) as [|c missing]; [done|].
  destruct s as [rasters tables cache n ui]. run_script.
  unfold add_ui, validation_report. cbn. by rewrite <- app_assoc.
Qed.

Lemma nothing_missing_iff (cols required : list string) :
  filter (λ c, c ∉ cols) required = [] ↔ ∀ c, c ∈ required → c ∈ cols.
Proof.
  split.
  - intros Hnil c Hc. destruct (decide (c ∈ cols)) as [|Hout]; [done|].
    by destruct (filter_nil_not_elem_of _ _ c Hnil Hout).
  - intros Hall. apply elem_of_nil_inv. intros c.
    rewrite list_elem_of_filter. intros [Hout Hin]. by apply Hout, Hall.
Qed.

Lemma add_ui_add_ui l1 l2 s : add_ui l2 (add_ui l1 s) = add_ui (l1 ++ l2) s.
Proof. unfold add_ui. cbn. by rewrite app_assoc. Qed.

(** A run of the script up to the table. *)
Lemma app_run transform_bounds pd_to_numeric seasonal_data_explorer
    env menu opacity s :
  app transform_bounds pd_to_numeric seasonal_data_explorer env menu opacity s
  = if folium_bound env
    then
      match load_data pd_to_numeric s with
      | (Ok df, s') =>
          match filter (λ c, c ∉ columns df) REQUIRED_COLUMNS with
          | [] =>
              dispatch transform_bounds seasonal_data_explorer menu df
                (has_overlay env) opacity (add_ui chrome s')
          | missing =>
              (Raise StopException,
               add_ui (chrome ++ validation_report missing (columns df)) s')
          end
      | (Raise e, s') => (Raise e, add_ui chrome s')
      end
    else (Raise (NameError "folium"), add_ui [PAGE_CONFIG] s).
Proof.
  destruct (folium_bound env) eqn:Henv.
  - transitivity
      (match load_data pd_to_numeric (add_ui chrome s) with
       | (Ok df, s') =>
           (validate_columns df REQUIRED_COLUMNS;;
            dispatch transform_bounds seasonal_data_explorer menu df
              (has_overlay env) opacity) s'
       | (Raise e, s') => (Raise e, s')
       end).
    { unfold app. rewrite Henv. destruct s as [rasters tables cache n ui].
      run_script. unfold add_ui, chrome. cbn. rewrite <- !app_assoc. cbn.
      by destruct (load_data pd_to_numeric _) as [[df|e] s']. }
    rewrite load_data_frame.
    destruct (load_data pd_to_numeric s) as [[df|e] s']; cbn [fst snd]; [|done].
    unfold mbind, M_bind. rewrite validate_columns_eq.
    destruct (filter _ REQUIRED_COLUMNS); [done|].
    by rewrite add_ui_add_ui.
  - unfold app. rewrite Henv. destruct s as [rasters tables cache n ui].
    by run_script.
Qed.

(** C7. Validation of the loaded table against the required column names.
    The table is the one [load_data] returns: with an empty cache, the
    table of the CSV file with its labels trimmed of the whitespace
    [str.strip()] removes, which is then kept in the cache; with a table in
    the cache, that table, which is one an earlier run loaded from the file
    in the same way. Validation passes, emitting nothing and letting the
    script go on, if and only if every required name is among the column
    names of that table; otherwise it shows the list of the missing names
    and the list of the names found and stops the script, so that nothing
    after it is run and, in the script itself, no view is rendered. (A run
    in which the import of folium failed does not get as far as the
    table.) *)
Theorem validate_columns_iff pd_to_numeric s df s' required :
  load_data pd_to_numeric s = (Ok df, s') →
  match st_cache s with
  | None =>
      ∃ raw,
        st_tables s !! CSV_PATH = Some (Parsed raw)
        ∧ columns df = strip <$> columns raw
        ∧ s' = with_cache df s
  | Some cached =>
      df = cached ∧ s' = s
      ∧ (cache_sound pd_to_numeric s →
         ∃ raw, columns df = strip <$> columns raw)
  end
  ∧ (validate_columns df required s' = (Ok (), s')
     ↔ ∀ c, c ∈ required → c ∈ columns df)
  ∧ ((∃ c, c ∈ required ∧ c ∉ columns df) →
       ∃ missing,
         missing = filter (λ c, c ∉ columns df) required
         ∧ missing ≠ []
         ∧ ∀ (A : Type) (rest : M A),
             (validate_columns df required ≫= λ _, rest) s'
             = (Raise StopException,
                add_ui (validation_report missing (columns df)) s'))
  ∧ ∀ transform_bounds seasonal_data_explorer env menu opacity,
      app transform_bounds pd_to_numeric seasonal_data_explorer
          env menu opacity s
      = if folium_bound env
        then
          match filter (λ c, c ∉ columns df) REQUIRED_COLUMNS with
          | [] =>
              dispatch transform_bounds seasonal_data_explorer menu df
                (has_overlay env) opacity (add_ui chrome s')
          | missing =>
              (Raise StopException,
               add_ui (chrome ++ validation_report missing (columns df)) s')
          end
        else (Raise (NameError "folium"), add_ui [PAGE_CONFIG] s).
Proof.
  intros Hload. split_and!.
  - rewrite load_data_run in Hload.
    destruct (st_cache s) as [cached|] eqn:Hcache.
    + injection Hload as -> ->. split; [done|]. split; [done|].
      intros Hsound. destruct (Hsound df Hcache) as [raw Hraw].
      exists raw. by eapply loaded_table_columns.
    + destruct (st_tables s !! CSV_PATH) as [[raw| | |]|]; try done.
      destruct (loaded_table pd_to_numeric raw) as [df'|e] eqn:Hraw; [|done].
      injection Hload as <- <-. exists raw. split; [done|].
      split; [by eapply loaded_table_columns | done].
  - rewrite validate_columns_eq, <- nothing_missing_iff.
    by destruct (filter _ required).
  - intros (c & Hc & Hout). eexists. split; [done|].
    assert (filter (λ c, c ∉ columns df) required ≠ []) as Hne.
    { rewrite nothing_missing_iff. intros Hall. by apply Hout, Hall. }
    split; [done|]. intros A rest.
    unfold mbind, M_bind. rewrite validate_columns_eq.
    by destruct (filter _ required).
  - intros tb explorer env menu opacity. by rewrite app_run, Hload.
Qed.

(** ** The theorems at concrete inputs *)

(** C1 on the [float64] raster with the sentinel 0.1: 2^-200 becomes 0 and
    0.10000000001 becomes the sentinel, both Background; 0.5 is Hyacinth. *)
Lemma classify_pixel_colour_iff_witness :
  let s := precision_state in
  let src := float64_ds in
  let raw := mk_ndarray 1 3 [F64Cell (S754_finite false 4503599627370496 (-252));
                             F64Cell (dec64 10000000001 100000000000);
                             F64Cell (dec64 1 2)] in
  let bounds := ((f64 20, f64 10), (f64 21, f64 11)) in
  ∃ rgba,
    classify_raster_to_rgba tb_same "float64.tif" s = (Ok (rgba, bounds), s)
    ∧ rgba = mk_ndarray 1 3 [(0, 120, 255, 180); (0, 120, 255, 180);
                             (0, 200, 0, 220)]
    ∧ shape rgba = shape raw
    ∧ ∀ i j, (i < nd_h raw)%nat → (j < nd_w raw)%nat →
        ∃ c px,
          getitem raw i j = Some c
          ∧ getitem rgba i j = Some px
          ∧ (let v := match c with
                      | IntCell z => Float.f32_of_Z z
                      | F32Cell x => x
                      | F64Cell x => Float.f32_of_f64 x
                      end in
             (px = (0, 120, 255, 180)
              ↔ NoData (ds_nodata src) v ∨ Float.leb v Float.zero = true)
             ∧ (px = (0, 200, 0, 220)
                ↔ ¬ NoData (ds_nodata src) v ∧ Float.gtb v Float.zero = true))
          ∧ (∀ z (n : option Z),
               c = IntCell z → Z.abs z < 2 ^ 24 →
               ds_nodata src = Float.f64_of_Z <$> n →
               (∀ k, n = Some k → Z.abs k < 2 ^ 24) →
               (px = (0, 120, 255, 180) ↔ n = Some z ∨ z ≤ 0)
               ∧ (px = (0, 200, 0, 220) ↔ n ≠ Some z ∧ 0 < z)).
Proof.
  intros s src raw bounds.
  destruct (classify_pixel_colour_iff tb_same "float64.tif" s src raw bounds)
    as (rgba & Hrun & Hshape & Hpx); [vm_compute; reflexivity ..|].
  exists rgba. split; [exact Hrun|]. split; [|split; [exact Hshape | exact Hpx]].
  vm_compute in Hrun. by injection Hrun as <-.
Defined.

(** C2 on the 2×2 scenario with [float32] cells. *)
Lemma classes_exhaustive_exclusive_witness :
  let s := scenario_state (λ z, F32Cell (Float.f32_of_Z z)) in
  let src := scenario_ds (λ z, F32Cell (Float.f32_of_Z z)) in
  let raw := scenario_band (λ z, F32Cell (Float.f32_of_Z z)) in
  nd_wf raw
  ∧ ∃ rgba,
      classify_raster_to_rgba tb_same "scenario.tif" s
        = (Ok (rgba, ((f64 20, f64 10), (f64 21, f64 11))), s)
      ∧ ∀ i j, (i < nd_h raw)%nat → (j < nd_w raw)%nat →
          ∃ bg hy px,
            getitem (background_mask (nd_map astype_float32 raw) (ds_nodata src)) i j
              = Some bg
            ∧ getitem (hyacinth_mask (nd_map astype_float32 raw) (ds_nodata src)) i j
              = Some hy
            ∧ xorb bg hy = true
            ∧ getitem rgba i j = Some px
            ∧ px = class_rgba (if hy then Hyacinth else Background)
            ∧ (px = (0, 120, 255, 180) ∨ px = (0, 200, 0, 220))
            ∧ px ≠ (0, 0, 0, 0).
Proof.
  intros s src raw. split; [reflexivity|].
  apply (classes_exhaustive_exclusive tb_same "scenario.tif" s src raw);
    vm_compute; reflexivity.
Defined.

(** C4 on a raster in EPSG:4326 and on one without CRS, with a transform
    that would raise if it were called. *)
Lemma bounds_unchanged_when_target_or_absent_witness :
  upper "epsg:4326" = "EPSG:4326"
  ∧ raster_bounds_4326 tb_fails "scenario.tif" (scenario_state IntCell)
    = (Ok ((f64 20, f64 10), (f64 21, f64 11)), scenario_state IntCell)
  ∧ raster_bounds_4326 tb_fails "byte.tif" byte_state
    = (Ok ((f64 20, f64 10), (f64 21, f64 11)), byte_state).
Proof.
  split; [reflexivity|]. split.
  - apply (bounds_unchanged_when_target_or_absent "scenario.tif"
             (scenario_state IntCell) (scenario_ds IntCell)).
    + vm_compute; reflexivity.
    + right. exists (mk_CRS true "EPSG:4326"). split; [reflexivity|].
      right. vm_compute; reflexivity.
  - apply (bounds_unchanged_when_target_or_absent "byte.tif" byte_state byte_ds).
    + vm_compute; reflexivity.
    + left. reflexivity.
Defined.


(** C6 on two different states that hold the same file. *)
Lemma classify_deterministic_witness :
  let s1 := scenario_state IntCell in
  let s2 := busy_state IntCell in
  s1 ≠ s2
  ∧ (classify_raster_to_rgba tb_same "scenario.tif" s1).1
    = (classify_raster_to_rgba tb_same "scenario.tif" s2).1
  ∧ (classify_raster_to_rgba tb_same "scenario.tif" s1).2 = s1
  ∧ (classify_raster_to_rgba tb_same "scenario.tif" s2).2 = s2
  ∧ classify_raster_to_rgba tb_same "scenario.tif"
      (classify_raster_to_rgba tb_same "scenario.tif" s1).2
    = classify_raster_to_rgba tb_same "scenario.tif" s1.
Proof.
  intros s1 s2. split; [intros H; discriminate (f_equal st_open H)|].
  apply (classify_deterministic tb_same "scenario.tif" s1 s2).
  vm_compute; reflexivity.
Defined.

(** Evaluates the right-hand side of an equation in the context. *)
Ltac compute_rhs H :=
  match type of H with
  | ?l = ?r =>
      let r' := eval vm_compute in r in
      let H' := fresh in
      assert (l = r') as H' by (rewrite H; vm_compute; reflexivity);
      clear H; rename H' into H
  end.

(** C7 on the header of a spreadsheet, which passes once trimmed, and on
    the table without [Latitude]. *)
Lemma validate_columns_iff_witness :
  (∃ df s',
     load_data no_numeric (table_state spreadsheet_table) = (Ok df, s')
     ∧ columns df = ["Season"; "Month"; "Area_km2"; "Latitude"; "Longitude"]
     ∧ s' = with_cache df (table_state spreadsheet_table)
     ∧ validate_columns df REQUIRED_COLUMNS s' = (Ok (), s')
     ∧ ∀ menu opacity,
         app tb_same no_numeric no_explorer all_present menu opacity
             (table_state spreadsheet_table)
         = dispatch tb_same no_explorer menu df true opacity (add_ui chrome s'))
  ∧ (∃ df s',
       load_data no_numeric (table_state no_latitude_table) = (Ok df, s')
       ∧ columns df = ["Season"; "Month"; "Area_km2"; "Longitude"]
       ∧ (∀ (A : Type) (rest : M A),
            (validate_columns df REQUIRED_COLUMNS ≫= λ _, rest) s'
            = (Raise StopException,
               add_ui (validation_report ["Latitude"]
                         ["Season"; "Month"; "Area_km2"; "Longitude"]) s'))
       ∧ ∀ menu opacity,
           app tb_same no_numeric no_explorer all_present menu opacity
               (table_state no_latitude_table)
           = (Raise StopException,
              add_ui (chrome
                      ++ validation_report ["Latitude"]
                           ["Season"; "Month"; "Area_km2"; "Longitude"]) s')).
Proof.
  split.
  - destruct (load_data no_numeric (table_state spreadsheet_table))
      as [[df|e] s'] eqn:Hload; [|vm_compute in Hload; discriminate Hload].
    exists df, s'. split; [reflexivity|].
    destruct (validate_columns_iff no_numeric (table_state spreadsheet_table)
                df s' REQUIRED_COLUMNS Hload) as (Hsrc & Hiff & _ & Happ).
    cbn [st_cache table_state] in Hsrc.
    destruct Hsrc as (raw & Hraw & Hcols & Hs').
    vm_compute in Hraw. injection Hraw as <-. compute_rhs Hcols.
    assert (∀ c, c ∈ REQUIRED_COLUMNS → c ∈ columns df) as Hall
      by (intros c Hc; rewrite Hcols; exact Hc).
    split; [exact Hcols|]. split; [exact Hs'|].
    split; [apply Hiff; exact Hall|].
    intros menu opacity.
    rewrite (Happ tb_same no_explorer all_present menu opacity).
    cbn [folium_bound has_overlay all_present numpy_ok folium_ok
         streamlit_folium_ok rasterio_ok rasterio_warp_ok andb].
    apply nothing_missing_iff in Hall. rewrite Hall. reflexivity.
  - destruct (load_data no_numeric (table_state no_latitude_table))
      as [[df|e] s'] eqn:Hload; [|vm_compute in Hload; discriminate Hload].
    exists df, s'. split; [reflexivity|].
    destruct (validate_columns_iff no_numeric (table_state no_latitude_table)
                df s' REQUIRED_COLUMNS Hload) as (Hsrc & _ & Hhalt & Happ).
    cbn [st_cache table_state] in Hsrc.
    destruct Hsrc as (raw & Hraw & Hcols & Hs').
    vm_compute in Hraw. injection Hraw as <-. compute_rhs Hcols.
    assert (filter (λ c, c ∉ columns df) REQUIRED_COLUMNS = ["Latitude"])
      as Hmissing by (rewrite Hcols; vm_compute; reflexivity).
    split; [exact Hcols|]. split.
    + destruct Hhalt as (missing & -> & _ & Hrest).
      { exists "Latitude". split.
        - repeat (apply list_elem_of_here || apply list_elem_of_further).
        - rewrite Hcols, !elem_of_cons, elem_of_nil. intuition discriminate. }
      intros A rest. rewrite (Hrest A rest), Hmissing, Hcols. reflexivity.
    + intros menu opacity.
      rewrite (Happ tb_same no_explorer all_present menu opacity).
      cbn [folium_bound all_present numpy_ok folium_ok andb].
      rewrite Hmissing, Hcols. reflexivity.
Defined.

(** C9 on the scenario raster (no reprojection) and on the Pacific raster
    (reprojected). *)
Lemma bounds_layout_and_order_witness :
  nondegenerate (ds_bounds (scenario_ds IntCell))
  ∧ ordered ((f64 20, f64 10), (f64 21, f64 11))
  ∧ raster_bounds_4326 tb_antimeridian "scenario.tif" (scenario_state IntCell)
    = (Ok ((f64 20, f64 10), (f64 21, f64 11)), scenario_state IntCell)
  ∧ raster_bounds_4326 tb_antimeridian "pacific.tif" mercator_state
    = (Ok ((f64 (-18), f64 170), (f64 (-9), f64 (-170))), mercator_state).
Proof.
  assert (nondegenerate (ds_bounds (scenario_ds IntCell))) as Hnd
    by (split; vm_compute; reflexivity).
  destruct (bounds_layout_and_order tb_antimeridian "scenario.tif"
              (scenario_state IntCell) (scenario_ds IntCell))
    as [Hskip _]; [vm_compute; reflexivity|].
  destruct Hskip as [Hrun Hord]; [vm_compute; reflexivity|].
  destruct (bounds_layout_and_order tb_antimeridian "pacific.tif"
              mercator_state mercator_ds)
    as [_ Hre]; [vm_compute; reflexivity|].
  destruct Hre as (crs & Hcrs & Hre); [vm_compute; reflexivity|].
  destruct (Hre (f64 170) (f64 (-18)) (f64 (-170)) (f64 (-9)) eq_refl)
    as [Hrun' _].
  split; [exact Hnd|]. split; [exact (Hord Hnd)|]. split; [exact Hrun|].
  exact Hrun'.
Defined.

(** C10 on WGS84 given as OGC:CRS84 and on a projected raster, which are
    reprojected, and on the scenario raster, which is not. *)
Lemma reprojection_decided_by_string_witness :
  "epsg:4326" ∈ EPSG_4326_SPELLINGS
  ∧ "Epsg:4326" ∈ EPSG_4326_SPELLINGS
  ∧ upper "OGC:CRS84" ≠ "EPSG:4326"
  ∧ raster_bounds_4326 tb_antimeridian "crs84.tif" crs84_state
    = (Ok ((f64 (-18), f64 170), (f64 (-9), f64 (-170))), crs84_state)
  ∧ raster_bounds_4326 tb_fails "pacific.tif" mercator_state
    = (Raise (WarpError "transform failed"), mercator_state)
  ∧ raster_bounds_4326 tb_fails "scenario.tif" (scenario_state IntCell)
    = (Ok (native_bounds (ds_bounds (scenario_ds IntCell))), scenario_state IntCell).
Proof.
  assert (upper "OGC:CRS84" ≠ "EPSG:4326") as Hne by (vm_compute; discriminate).
  assert (upper "EPSG:3832" ≠ "EPSG:4326") as Hne' by (vm_compute; discriminate).
  split; [vm_compute; repeat (apply list_elem_of_here || apply list_elem_of_further)|].
  split; [vm_compute; repeat (apply list_elem_of_here || apply list_elem_of_further)|].
  split; [exact Hne|]. split; [|split].
  - destruct (reprojection_decided_by_string tb_antimeridian "crs84.tif"
                crs84_state crs84_ds) as (_ & Hre & _); [vm_compute; reflexivity|].
    apply (Hre (mk_CRS true "OGC:CRS84")); [reflexivity|reflexivity|exact Hne].
  - destruct (reprojection_decided_by_string tb_fails "pacific.tif"
                mercator_state mercator_ds) as (_ & Hre & _);
      [vm_compute; reflexivity|].
    apply (Hre (mk_CRS true "EPSG:3832")); [reflexivity|reflexivity|exact Hne'].
  - destruct (reprojection_decided_by_string tb_fails "scenario.tif"
                (scenario_state IntCell) (scenario_ds IntCell)) as (_ & _ & Hskip);
      [vm_compute; reflexivity|].
    apply (Hskip (mk_CRS true "EPSG:4326")); [reflexivity|].
    vm_compute. repeat (apply list_elem_of_here || apply list_elem_of_further).
Defined.

(** C8 with no raster on disk; with the winter raster alone; with a winter
    raster whose reprojection fails; with a winter raster without bands. *)
Lemma read_errors_reach_the_caller_witness :
  raster_bounds_4326 tb_same winter_tif empty_state
    = (Raise (RasterioIOError winter_tif), empty_state)
  ∧ classify_raster_to_rgba tb_same winter_tif empty_state
    = (Raise (RasterioIOError winter_tif), empty_state)
  ∧ map_view tb_same false (dec64 85 100) empty_state
    = (Raise StopException,
       add_ui [ETitle MAP_VIEW_TITLE; EError (Lit INSTALL_HINT)] empty_state)
  ∧ (∃ winter_map,
       map_view tb_same true (dec64 85 100) winter_only_state
       = (Raise (RasterioIOError summer_tif),
          add_ui (map_view_intro
                  ++ [ESubheader "Winter 2025"; EFolium winter_map 650 550;
                      ESubheader "Summer 2025"]) winter_only_state))
  ∧ map_view tb_fails true (dec64 85 100) projected_winter_state
    = (Raise (WarpError "transform failed"),
       add_ui (map_view_intro ++ [ESubheader "Winter 2025"])
         projected_winter_state)
  ∧ map_view tb_same true (dec64 85 100) bandless_winter_state
    = (Raise IndexError,
       add_ui (map_view_intro ++ [ESubheader "Winter 2025"])
         bandless_winter_state).
Proof.
  destruct (read_errors_reach_the_caller tb_same (dec64 85 100) empty_state)
    as (Hopen & Hprop & Hstop & _).
  split; [apply Hopen; reflexivity|]. split; [|split; [exact Hstop|]].
  { apply (Hprop winter_tif (RasterioIOError winter_tif)). by rewrite Hopen. }
  split; [|split].
  - destruct (build_raster_map tb_same winter_tif WINTER_TITLE (dec64 85 100)
                winter_only_state).1 as [winter_map|e] eqn:Hw;
      [|vm_compute in Hw; discriminate Hw].
    exists winter_map.
    destruct (read_errors_reach_the_caller tb_same (dec64 85 100)
                winter_only_state) as (_ & _ & _ & _ & _ & _ & Hsummer & _).
    apply (Hsummer winter_map (RasterioIOError summer_tif) Hw).
    vm_compute; reflexivity.
  - destruct (read_errors_reach_the_caller tb_fails (dec64 85 100)
                projected_winter_state) as (_ & _ & _ & _ & _ & Hwinter & _).
    apply (Hwinter (WarpError "transform failed")). vm_compute; reflexivity.
  - destruct (read_errors_reach_the_caller tb_same (dec64 85 100)
                bandless_winter_state) as (_ & _ & _ & _ & _ & Hwinter & _).
    apply (Hwinter IndexError). vm_compute; reflexivity.
Defined.

(** ** The scenarios of the specification, run *)

(** A table without [Latitude]: the script reports exactly that name as
    missing, lists the four columns found and stops; no table, chart or map
    is rendered, whatever view is selected. *)
Example missing_latitude_scenario menu opacity :
  app tb_same no_numeric no_explorer all_present menu opacity
      (table_state no_latitude_table)
  = (Raise StopException,
     add_ui (chrome
             ++ validation_report ["Latitude"]
                  ["Season"; "Month"; "Area_km2"; "Longitude"])
       (with_cache
          (mk_DataFrame (numeric_columns no_numeric (df_cols no_latitude_table)))
          (table_state no_latitude_table))).
Proof. vm_compute. reflexivity. Qed.

(** A header that needs trimming passes validation, and the table is kept
    for the next run. *)
Example trimmed_header_passes :
  ∃ df,
    load_data no_numeric (table_state good_table)
      = (Ok df, with_cache df (table_state good_table))
    ∧ columns df = REQUIRED_COLUMNS
    ∧ validate_columns df REQUIRED_COLUMNS (table_state good_table)
      = (Ok (), table_state good_table).
Proof. eexists. repeat split; vm_compute; reflexivity. Qed.

(** Trimming removes the no-break space and the ideographic space, keeps
    inner spaces, and keeps the zero-width space, which is not whitespace. *)
Example strip_unicode :
  strip (chr 160 +:+ " Area km2" +:+ chr 12288 +:+ chr 10) = "Area km2"
  ∧ strip (chr 8203 +:+ "x ") = chr 8203 +:+ "x"
  ∧ strip (" " +:+ chr 9 +:+ chr 133) = EmptyString.
Proof. repeat split; vm_compute; reflexivity. Qed.

(** With rasterio missing the Contact view is untouched and the Map View
    shows the install message; with numpy missing, folium is never imported
    and the run ends when [add_legend] is defined, before the navigation. *)
Example import_failure_scenarios opacity :
  (app tb_same no_numeric no_explorer no_rasterio "Map View" opacity
       (table_state good_table)).1 = Raise StopException
  ∧ (app tb_same no_numeric no_explorer no_rasterio "Contact" opacity
         (table_state good_table)).1 = Ok ()
  ∧ app tb_same no_numeric no_explorer no_numpy "Contact" opacity
        (table_state good_table)
    = (Raise (NameError "folium"), add_ui [PAGE_CONFIG] (table_state good_table)).
Proof. repeat split; vm_compute; reflexivity. Qed.

(** * Further properties of the script *)

(** ** The classifier on further inputs *)

(** X1. Integer rasters are classified by integer comparisons: for a cell
    [z] and an integer sentinel [n] below 2^24 in absolute value (where
    [float32] is exact), the pixel is Hyacinth if and only if [z > 0] and
    [z] is not the sentinel; the conversion to [float32] loses nothing. *)
Theorem int_cells_by_integer_comparison raw (nodata : option Z) i j z :
  nd_wf raw →
  getitem raw i j = Some (IntCell z) →
  Z.abs z < 2 ^ 24 →
  (∀ n, nodata = Some n → Z.abs n < 2 ^ 24) →
  getitem (classify_band raw (Float.f64_of_Z <$> nodata)) i j
  = Some (class_rgba (if bool_decide (0 < z ∧ nodata ≠ Some z)
                      then Hyacinth else Background)).
Proof.
  intros Hwf Hc Hz Hn. rewrite (classify_band_getitem _ _ _ _ _ Hwf Hc).
  rewrite cell_rgba_class. do 2 f_equal.
  cbn [astype_float32]. unfold is_hyacinth, is_nodata.
  destruct (f32_of_Z_sign z Hz) as (Hnan & _ & Hgt). rewrite Hgt.
  destruct nodata as [n|]; cbn [fmap option_fmap option_map].
  - rewrite f32_of_f64_of_Z, f32_of_Z_eqb, Hnan, orb_false_r by auto.
    repeat case_bool_decide; cbn; try done; exfalso; intuition congruence.
  - rewrite Hnan.
    repeat case_bool_decide; cbn; try done; exfalso; intuition congruence.
Qed.

(** X2. The classification is a threshold: when a pixel is Hyacinth,
    every pixel of the band whose value is at least as large and is not
    no-data is Hyacinth too. *)
Theorem hyacinth_upward_closed raw nodata i j i' j' c c' :
  nd_wf raw →
  getitem raw i j = Some c →
  getitem raw i' j' = Some c' →
  getitem (classify_band raw nodata) i j = Some (class_rgba Hyacinth) →
  Float.leb (astype_float32 c) (astype_float32 c') = true →
  ¬ NoData nodata (astype_float32 c') →
  getitem (classify_band raw nodata) i' j' = Some (class_rgba Hyacinth).
Proof.
  intros Hwf Hc Hc' Hpx Hle Hnd.
  rewrite (classify_band_getitem _ _ _ _ _ Hwf Hc), cell_rgba_class in Hpx.
  rewrite (classify_band_getitem _ _ _ _ _ Hwf Hc'), cell_rgba_class.
  rewrite <- is_nodata_NoData in Hnd. apply not_true_is_false in Hnd.
  destruct (is_hyacinth nodata (astype_float32 c)) eqn:Hhy; [|done].
  unfold is_hyacinth in *. rewrite Hnd. cbn.
  apply andb_true_iff in Hhy as [_ Hgt].
  assert (Float.gtb (astype_float32 c') Float.zero = true) as ->; [|done].
  revert Hgt Hle. generalize (astype_float32 c) (astype_float32 c').
  intros x y. by destruct x as [[]|[]| |[] m e], y as [[]|[]| |[] m' e'].
Qed.

(** X3. A sentinel that is zero, negative or NaN changes nothing: the
    image is the one obtained with no sentinel declared, because the values
    it would mask are Background already. *)
Theorem nonpositive_sentinel_changes_nothing raw nd :
  Float.leb nd Float.zero = true ∨ Float.isnan nd = true →
  classify_band raw (Some nd) = classify_band raw None.
Proof.
  intros Hnd. unfold classify_band.
  set (band := nd_map astype_float32 raw).
  assert (background_mask band (Some nd) = background_mask band None) as ->.
  { apply ndarray_eq; [done|done|]. rewrite !background_mask_data.
    apply list_fmap_ext. intros _ x _. by apply nonpositive_sentinel_cell. }
  assert (hyacinth_mask band (Some nd) = hyacinth_mask band None) as ->.
  { apply ndarray_eq; [done|done|]. rewrite !hyacinth_mask_data.
    apply list_fmap_ext. intros _ x _. by apply nonpositive_sentinel_cell. }
  done.
Qed.

(** X4. Only band 1 is read: two files with the same bounds, CRS,
    sentinel and first band give the same image and bounds, whatever their
    other bands are. *)
Theorem only_band_one_is_read transform_bounds tif_path s s' src src' :
  st_rasters s !! tif_path = Some src →
  st_rasters s' !! tif_path = Some src' →
  ds_bounds src = ds_bounds src' →
  ds_crs src = ds_crs src' →
  ds_nodata src = ds_nodata src' →
  ds_bands src !! 0%nat = ds_bands src' !! 0%nat →
  (classify_raster_to_rgba transform_bounds tif_path s).1
  = (classify_raster_to_rgba transform_bounds tif_path s').1.
Proof.
  intros Hs Hs' Hb Hcrs Hnd Hband. rewrite !classify_raster_to_rgba_eq.
  unfold on_file, overlay_of, bounds_of. cbn [fst].
  by rewrite Hs, Hs', Hb, Hcrs, Hnd, Hband.
Qed.

(** X5. A file without any band makes the classifier raise [IndexError],
    after its bounds were computed. *)
Theorem no_band_raises_IndexError transform_bounds tif_path s src bounds :
  st_rasters s !! tif_path = Some src →
  (raster_bounds_4326 transform_bounds tif_path s).1 = Ok bounds →
  ds_bands src = [] →
  classify_raster_to_rgba transform_bounds tif_path s = (Raise IndexError, s).
Proof.
  intros Hs Hb Hbands. rewrite raster_bounds_4326_eq in Hb.
  rewrite classify_raster_to_rgba_eq. unfold on_file, overlay_of in *.
  rewrite Hs in *. cbn in Hb. by rewrite Hb, Hbands.
Qed.

Section MapExtras.

Variable transform_bounds :
  CRS → string → spec_float → spec_float → spec_float → spec_float →
  result (spec_float * spec_float * spec_float * spec_float).

(** X6. When the classifier returns an image and its bounds,
    [build_raster_map] centres a map on the middle of the bounds. If that
    centre has a NaN in it (the bounds hold a NaN, or opposite infinities)
    [folium.Map] refuses it and [build_raster_map] raises [ValueError].
    Otherwise the map returned is centred there at zoom 12 with the scale
    shown, and holds one overlay, which is the classified image placed on
    the bounds the classifier returned, with the opacity and the title it
    was given; the view is fitted to those same bounds, the legend carries
    the title, and the layer control is collapsed. The state is left as
    found in both cases. *)
Theorem build_raster_map_contract tif_path map_title opacity s rgba bounds :
  (classify_raster_to_rgba transform_bounds tif_path s).1 = Ok (rgba, bounds) →
  if Float.isnan (centre_of bounds).1 || Float.isnan (centre_of bounds).2
  then
    build_raster_map transform_bounds tif_path map_title opacity s
    = (Raise ValueError, s)
  else
    ∃ m,
      build_raster_map transform_bounds tif_path map_title opacity s = (Ok m, s)
      ∧ m_location m = centre_of bounds
      ∧ m_zoom_start m = 12
      ∧ m_control_scale m = true
      ∧ m_overlays m = [mk_ImageOverlay rgba bounds opacity map_title false 1]
      ∧ m_fit_bounds m = Some bounds
      ∧ m_legend m = Some map_title
      ∧ m_layer_control m = Some true.
Proof.
  rewrite classify_raster_to_rgba_eq. cbn [fst]. intros Hc.
  rewrite build_raster_map_eq, Hc. unfold folium_Map.
  destruct (Float.isnan (centre_of bounds).1 || Float.isnan (centre_of bounds).2);
    [done|]. by eexists.
Qed.

(** X7. With the libraries present and both rasters readable, the Map View
    emits its introduction, then the winter heading and map, then the summer
    heading and map, both maps built with the opacity of the slider. *)
Theorem map_view_renders_winter_then_summer opacity s winter_map summer_map :
  (build_raster_map transform_bounds winter_tif WINTER_TITLE opacity s).1
    = Ok winter_map →
  (build_raster_map transform_bounds summer_tif SUMMER_TITLE opacity s).1
    = Ok summer_map →
  map_view transform_bounds true opacity s
  = (Ok (),
     add_ui (map_view_intro
             ++ [ESubheader "Winter 2025"; EFolium winter_map 650 550;
                 ESubheader "Summer 2025"; EFolium summer_map 650 550]) s).
Proof. intros Hw Hs. by rewrite map_view_run, Hw, Hs. Qed.

(** X8. When the winter raster is readable and the summer raster is
    missing, the winter map has already been emitted when the error of the
    summer raster leaves the Map View. *)
Theorem map_view_summer_missing opacity s winter_map :
  (build_raster_map transform_bounds winter_tif WINTER_TITLE opacity s).1
    = Ok winter_map →
  st_rasters s !! summer_tif = None →
  map_view transform_bounds true opacity s
  = (Raise (RasterioIOError summer_tif),
     add_ui (map_view_intro
             ++ [ESubheader "Winter 2025"; EFolium winter_map 650 550;
                 ESubheader "Summer 2025"]) s).
Proof.
  intros Hw Hs. rewrite map_view_run, Hw.
  rewrite (build_raster_map_raises _ _ _ _ _ (RasterioIOError summer_tif)); [done|].
  rewrite classify_raster_to_rgba_eq. unfold on_file. by rewrite Hs.
Qed.

(** X9. Whatever happens, the Map View only adds elements to the page: the
    rasters, the tables and the number of open handles are as before, on
    the error paths too. *)
Theorem map_view_only_adds_elements HAS_OVERLAY opacity s :
  ∃ r ui, map_view transform_bounds HAS_OVERLAY opacity s = (r, add_ui ui s).
Proof.
  destruct HAS_OVERLAY; [|by rewrite map_view_stops_without_overlay; eauto].
  rewrite map_view_run.
  destruct (build_raster_map transform_bounds winter_tif _ opacity s).1; [|eauto].
  destruct (build_raster_map transform_bounds summer_tif _ opacity s).1; eauto.
Qed.

End MapExtras.

Section TableExtras.

Variable pd_to_numeric : list value → list value.

(** X10. What [load_data] returns. With a table in the cache: that table,
    whatever the file has become, and nothing is read. With an empty cache:
    [FileNotFoundError] when the CSV file is missing; [EmptyDataError],
    [ParserError] or [UnicodeDecodeError] when it cannot be parsed;
    [TypeError] when one of the three numeric labels occurs more than once
    among the trimmed labels of the file; otherwise the table of the file
    with its labels trimmed, in the order of the file, each of the numeric
    columns that is present passed once through [to_numeric] and every
    other column as it was, and that table is kept in the cache. A failed
    load leaves the cache empty. *)
Theorem load_data_spec s :
  (∀ df, st_cache s = Some df → load_data pd_to_numeric s = (Ok df, s))
  ∧ (st_cache s = None →
     (st_tables s !! CSV_PATH = None →
        load_data pd_to_numeric s = (Raise (FileNotFoundError CSV_PATH), s))
     ∧ (st_tables s !! CSV_PATH = Some EmptyFile →
          load_data pd_to_numeric s = (Raise EmptyDataError, s))
     ∧ (st_tables s !! CSV_PATH = Some Malformed →
          load_data pd_to_numeric s = (Raise ParserError, s))
     ∧ (st_tables s !! CSV_PATH = Some BadEncoding →
          load_data pd_to_numeric s = (Raise UnicodeDecodeError, s))
     ∧ ∀ raw, st_tables s !! CSV_PATH = Some (Parsed raw) →
         load_data pd_to_numeric s
         = if bool_decide
                (Forall (λ c, (occurrences c (strip <$> columns raw) ≤ 1)%nat)
                        NUMERIC_COLUMNS)
           then
             let df :=
               mk_DataFrame
                 (numeric_columns pd_to_numeric (df_cols (strip_columns raw))) in
             (Ok df,
              mk_state (st_rasters s) (st_tables s) (Some df) (st_open s)
                (st_ui s))
           else (Raise TypeError, s)).
Proof.
  rewrite load_data_run. split.
  - by intros df ->.
  - intros ->. split_and!; try by intros ->.
    intros raw ->. unfold loaded_table. by case_bool_decide.
Qed.

End TableExtras.

(** X11. Every view needs the table: with nothing in the cache and the CSV
    file missing, the run ends with [FileNotFoundError] after the
    navigation, whatever view is selected, Map View and Contact included;
    unless the import of folium failed, in which case the run has ended
    before, with the [NameError] of the annotation of [add_legend]. *)
Theorem app_needs_the_table transform_bounds pd_to_numeric
    seasonal_data_explorer env menu opacity s :
  st_cache s = None →
  st_tables s !! CSV_PATH = None →
  app transform_bounds pd_to_numeric seasonal_data_explorer
      env menu opacity s
  = if folium_bound env
    then (Raise (FileNotFoundError CSV_PATH), add_ui chrome s)
    else (Raise (NameError "folium"), add_ui [PAGE_CONFIG] s).
Proof.
  intros Hcache Hnone. by rewrite app_run, load_data_run, Hcache, Hnone.
Qed.

(** X12. More columns never hurt: a table whose labels include those of a
    table that passes validation passes it too, so that extra columns and
    the order of the columns do not matter. *)
Theorem validate_columns_monotone df df' required s s' :
  (∀ c, c ∈ columns df → c ∈ columns df') →
  validate_columns df required s = (Ok (), s) →
  validate_columns df' required s' = (Ok (), s').
Proof.
  intros Hsub. rewrite !validate_columns_eq.
  destruct (filter _ required) as [|c l] eqn:Hf; [|done]. intros _.
  rewrite nothing_missing_iff in Hf.
  assert (filter (λ c, c ∉ columns df') required = []) as ->; [|done].
  apply nothing_missing_iff. auto.
Qed.

Lemma strip_left_suffix ws s : ∃ k, s = k ++ strip_left ws s.
Proof.
  remember (length s) as n eqn:Hn. revert s Hn.
  induction n as [n IH] using lt_wf_ind. intros s ->.
  destruct s as [|a r]; [by exists []|]. cbn [strip_left].
  case_bool_decide.
  { destruct (IH (length r)) with (s := r) as [k Hk]; [cbn; lia|done|].
    exists (a :: k). cbn. by rewrite <- Hk. }
  destruct r as [|b r']; [by exists []|].
  case_bool_decide.
  { destruct (IH (length r')) with (s := r') as [k Hk]; [cbn; lia|done|].
    exists (a :: b :: k). cbn. by rewrite <- Hk. }
  destruct r' as [|c r'']; [by exists []|].
  case_bool_decide; [|by exists []].
  destruct (IH (length r'')) with (s := r'') as [k Hk]; [cbn; lia|done|].
  exists (a :: b :: c :: k). cbn. by rewrite <- Hk.
Qed.

Lemma starts_clean_short ws s :
  Forall (λ w, (1 ≤ length w ≤ 3)%nat) ws →
  (∀ a r, s = a :: r → [a] ∉ ws) →
  (∀ a b r, s = a :: b :: r → [a; b] ∉ ws) →
  (∀ a b c r, s = a :: b :: c :: r → [a; b; c] ∉ ws) →
  starts_clean ws s.
Proof.
  intros Hlen H1 H2 H3 w k Hw ->. rewrite Forall_forall in Hlen.
  specialize (Hlen w Hw).
  destruct w as [|x [|y [|z [|? ?]]]]; cbn in Hlen; try lia.
  - by apply (H1 x k).
  - by apply (H2 x y k).
  - by apply (H3 x y z k).
Qed.

Lemma strip_left_clean ws s :
  Forall (λ w, (1 ≤ length w ≤ 3)%nat) ws →
  starts_clean ws (strip_left ws s).
Proof.
  intros Hlen. remember (length s) as n eqn:Hn. revert s Hn.
  induction n as [n IH] using lt_wf_ind. intros s ->.
  destruct s as [|a r]; [by apply starts_clean_short|]. cbn [strip_left].
  case_bool_decide as Ha; [by apply (IH (length r)); [cbn; lia|]|].
  destruct r as [|b r'].
  { apply starts_clean_short; [done|..]; intros; simplify_eq; done. }
  case_bool_decide as Hb; [by apply (IH (length r')); [cbn; lia|]|].
  destruct r' as [|c r''].
  { apply starts_clean_short; [done|..]; intros; simplify_eq; done. }
  case_bool_decide as Hc; [by apply (IH (length r'')); [cbn; lia|]|].
  apply starts_clean_short; [done|..]; intros; simplify_eq; done.
Qed.

Lemma strip_left_of_clean ws s : starts_clean ws s → strip_left ws s = s.
Proof.
  intros Hclean. destruct s as [|a r]; [done|]. cbn [strip_left].
  rewrite bool_decide_eq_false_2 by (intros Hin; by apply (Hclean [a] r)).
  destruct r as [|b r']; [done|].
  rewrite bool_decide_eq_false_2 by (intros Hin; by apply (Hclean [a; b] r')).
  destruct r' as [|c r'']; [done|].
  by rewrite bool_decide_eq_false_2
    by (intros Hin; by apply (Hclean [a; b; c] r'')).
Qed.

Lemma starts_clean_prefix ws p k : starts_clean ws (p ++ k) → starts_clean ws p.
Proof.
  intros Hclean w k' Hw ->. apply (Hclean w (k' ++ k) Hw). by rewrite app_assoc.
Qed.

Lemma whitespace_lengths :
  Forall (λ w, (1 ≤ length w ≤ 3)%nat) (utf8 <$> WHITESPACE)
  ∧ Forall (λ w, (1 ≤ length w ≤ 3)%nat) (reverse <$> (utf8 <$> WHITESPACE)).
Proof. split; vm_compute; repeat constructor. Qed.

(** What [strip] leaves starts with no whitespace and ends with none. *)
Lemma strip_bytes_trimmed s :
  let t := rstrip_bytes (lstrip_bytes s) in
  lstrip_bytes t = t ∧ rstrip_bytes t = t.
Proof.
  destruct whitespace_lengths as [Hl Hr]. cbn zeta. split.
  - apply strip_left_of_clean. unfold rstrip_bytes.
    destruct (strip_left_suffix (reverse <$> (utf8 <$> WHITESPACE))
                (reverse (lstrip_bytes s))) as [k Hk].
    apply (starts_clean_prefix _ _ (reverse k)).
    rewrite <- reverse_app, <- Hk, reverse_involutive.
    by apply strip_left_clean.
  - unfold rstrip_bytes. rewrite reverse_involutive. f_equal.
    apply strip_left_of_clean. by apply strip_left_clean.
Qed.

Lemma strip_trimmed s :
  lstrip (strip s) = strip s ∧ rstrip (strip s) = strip s.
Proof.
  unfold strip, lstrip, rstrip.
  rewrite !String.list_ascii_of_string_of_list_ascii.
  destruct (strip_bytes_trimmed (String.list_ascii_of_string s)) as [Hl Hr].
  by rewrite Hl, Hr.
Qed.

Lemma loaded_table_trimmed pd_to_numeric raw df label :
  loaded_table pd_to_numeric raw = Ok df →
  label ∈ columns df →
  lstrip label = label ∧ rstrip label = label ∧ strip label = label.
Proof.
  intros Hraw Hin. rewrite (loaded_table_columns _ _ _ Hraw) in Hin.
  apply list_elem_of_fmap in Hin as (l & -> & _).
  destruct (strip_trimmed l) as [Hl Hr]. split; [done|]. split; [done|].
  unfold strip at 1. by rewrite Hl, Hr.
Qed.

(** X13. Every label of the table [load_data] returns is trimmed: trimming
    it again, on the left, on the right or on both sides, gives the label
    back. This holds for the table read from the file and for the table
    taken from the cache, a cache that holds what [load_data] returned in
    an earlier run; and the cache [load_data] leaves is again such a
    cache. *)
Theorem loaded_labels_are_trimmed pd_to_numeric s df :
  cache_sound pd_to_numeric s →
  (load_data pd_to_numeric s).1 = Ok df →
  cache_sound pd_to_numeric (load_data pd_to_numeric s).2
  ∧ ∀ label, label ∈ columns df →
      lstrip label = label ∧ rstrip label = label ∧ strip label = label.
Proof.
  intros Hsound. rewrite load_data_run.
  destruct (st_cache s) as [cached|] eqn:Hcache.
  - cbn [fst snd]. intros [= ->]. split; [done|]. intros label.
    destruct (Hsound df Hcache) as [raw Hraw].
    by apply (loaded_table_trimmed pd_to_numeric raw).
  - destruct (st_tables s !! CSV_PATH) as [[raw| | |]|]; try done.
    destruct (loaded_table pd_to_numeric raw) as [df'|e] eqn:Hraw; [|done].
    cbn [fst snd]. intros [= ->]. split.
    + intros df' [= <-]. by exists raw.
    + intros label. by apply (loaded_table_trimmed pd_to_numeric raw).
Qed.

(** ** The further theorems at concrete inputs *)

(** X1 on the scenario band: the cell 5 is Hyacinth, the cell -9999 is the
    sentinel. *)
Lemma int_cells_by_integer_comparison_witness :
  getitem (classify_band (scenario_band IntCell) (Some (f64 (-9999)))) 1 0
    = Some (class_rgba Hyacinth)
  ∧ getitem (classify_band (scenario_band IntCell) (Some (f64 (-9999)))) 0 0
    = Some (class_rgba Background).
Proof.
  split.
  - apply (int_cells_by_integer_comparison (scenario_band IntCell)
             (Some (-9999)) 1 0 5); [reflexivity|reflexivity|reflexivity|].
    intros n [= <-]. reflexivity.
  - apply (int_cells_by_integer_comparison (scenario_band IntCell)
             (Some (-9999)) 0 0 (-9999)); [reflexivity|reflexivity|reflexivity|].
    intros n [= <-]. reflexivity.
Defined.

(** X2 on the ramp 1, 2, 3: the first cell is Hyacinth, so the third is. *)
Lemma hyacinth_upward_closed_witness :
  getitem (classify_band ramp_band None) 0 0 = Some (class_rgba Hyacinth)
  ∧ getitem (classify_band ramp_band None) 0 2 = Some (class_rgba Hyacinth).
Proof.
  assert (getitem (classify_band ramp_band None) 0 0
          = Some (class_rgba Hyacinth)) as H0 by (vm_compute; reflexivity).
  split; [exact H0|].
  apply (hyacinth_upward_closed ramp_band None 0 0 0 2 (IntCell 1) (IntCell 3));
    [reflexivity|reflexivity|reflexivity|exact H0|vm_compute; reflexivity|].
  intros [(nd & Hnd & _)|Hnan]; discriminate.
Defined.

(** X3 on the scenario band with its sentinel -9999. *)
Lemma nonpositive_sentinel_changes_nothing_witness :
  classify_band (scenario_band IntCell) (Some (f64 (-9999)))
  = classify_band (scenario_band IntCell) None.
Proof.
  apply (nonpositive_sentinel_changes_nothing (scenario_band IntCell) (f64 (-9999))).
  left. vm_compute; reflexivity.
Defined.

(** X4 on the scenario raster with and without a second band. *)
Lemma only_band_one_is_read_witness :
  scenario_state IntCell ≠ two_band_state
  ∧ (classify_raster_to_rgba tb_same "scenario.tif" (scenario_state IntCell)).1
    = (classify_raster_to_rgba tb_same "scenario.tif" two_band_state).1.
Proof.
  split.
  - intros H. apply (f_equal (λ s, st_rasters s !! "scenario.tif")) in H.
    vm_compute in H. discriminate H.
  - by eapply (only_band_one_is_read tb_same "scenario.tif"
                 (scenario_state IntCell) two_band_state);
      vm_compute; reflexivity.
Defined.

(** X5 on the raster without bands. *)
Lemma no_band_raises_IndexError_witness :
  classify_raster_to_rgba tb_same "other.tif" (busy_state IntCell)
  = (Raise IndexError, busy_state IntCell).
Proof.
  by eapply (no_band_raises_IndexError tb_same "other.tif" (busy_state IntCell));
    vm_compute; reflexivity.
Defined.

(** X6 on the scenario raster, with the overlay fully transparent, and on
    the Pacific raster with a reprojection that is infinite. *)
Lemma build_raster_map_contract_witness :
  (∃ rgba m,
     (classify_raster_to_rgba tb_same "scenario.tif" (scenario_state IntCell)).1
       = Ok (rgba, ((f64 20, f64 10), (f64 21, f64 11)))
     ∧ build_raster_map tb_same "scenario.tif" "Scenario" (dec64 0 1)
         (scenario_state IntCell)
       = (Ok m, scenario_state IntCell)
     ∧ m_location m = (dec64 41 2, dec64 21 2)
     ∧ m_overlays m
       = [mk_ImageOverlay rgba ((f64 20, f64 10), (f64 21, f64 11))
            (dec64 0 1) "Scenario" false 1]
     ∧ m_fit_bounds m = Some ((f64 20, f64 10), (f64 21, f64 11))
     ∧ m_legend m = Some "Scenario"
     ∧ m_layer_control m = Some true)
  ∧ build_raster_map tb_infinite "pacific.tif" "Pacific" (dec64 85 100)
      mercator_state
    = (Raise ValueError, mercator_state).
Proof.
  split.
  - eexists.
    assert ((classify_raster_to_rgba tb_same "scenario.tif"
               (scenario_state IntCell)).1
            = Ok (classify_band (scenario_band IntCell) (Some (f64 (-9999))),
                  ((f64 20, f64 10), (f64 21, f64 11)))) as Hc
      by (vm_compute; reflexivity).
    pose proof (build_raster_map_contract tb_same "scenario.tif" "Scenario"
                  (dec64 0 1) (scenario_state IntCell) _ _ Hc) as Hm.
    assert (Float.isnan (centre_of ((f64 20, f64 10), (f64 21, f64 11))).1
            || Float.isnan (centre_of ((f64 20, f64 10), (f64 21, f64 11))).2
            = false) as Hnan by (vm_compute; reflexivity).
    rewrite Hnan in Hm.
    destruct Hm as (m & Hrun & Hloc & _ & _ & Hov & Hfit & Hleg & Hlc).
    exists m. split; [exact Hc|]. split; [exact Hrun|].
    split; [rewrite Hloc; vm_compute; reflexivity|].
    split; [exact Hov|]. split; [exact Hfit|]. split; [exact Hleg | exact Hlc].
  - assert ((classify_raster_to_rgba tb_infinite "pacific.tif" mercator_state).1
            = Ok (mk_ndarray 1 1 [(0, 200, 0, 220)],
                  ((S754_infinity false, S754_infinity false),
                   (S754_infinity false, S754_infinity true)))) as Hc
      by (vm_compute; reflexivity).
    exact (build_raster_map_contract tb_infinite "pacific.tif" "Pacific"
             (dec64 85 100) mercator_state _ _ Hc).
Defined.

(** X7 with both rasters on disk. *)
Lemma map_view_renders_winter_then_summer_witness :
  ∃ winter_map summer_map,
    map_view tb_same true (dec64 85 100) seasons_state
    = (Ok (),
       add_ui (map_view_intro
               ++ [ESubheader "Winter 2025"; EFolium winter_map 650 550;
                   ESubheader "Summer 2025"; EFolium summer_map 650 550])
         seasons_state).
Proof.
  destruct (build_raster_map tb_same winter_tif WINTER_TITLE (dec64 85 100)
              seasons_state).1 as [winter_map|e] eqn:Hw;
    [|vm_compute in Hw; discriminate Hw].
  destruct (build_raster_map tb_same summer_tif SUMMER_TITLE (dec64 85 100)
              seasons_state).1 as [summer_map|e] eqn:Hs;
    [|vm_compute in Hs; discriminate Hs].
  exists winter_map, summer_map.
  exact (map_view_renders_winter_then_summer tb_same (dec64 85 100)
           seasons_state winter_map summer_map Hw Hs).
Defined.

(** X8 with the winter raster alone on disk. *)
Lemma map_view_summer_missing_witness :
  ∃ winter_map,
    map_view tb_same true (dec64 85 100) winter_only_state
    = (Raise (RasterioIOError summer_tif),
       add_ui (map_view_intro
               ++ [ESubheader "Winter 2025"; EFolium winter_map 650 550;
                   ESubheader "Summer 2025"])
         winter_only_state).
Proof.
  destruct (build_raster_map tb_same winter_tif WINTER_TITLE (dec64 85 100)
              winter_only_state).1 as [winter_map|e] eqn:Hw;
    [|vm_compute in Hw; discriminate Hw].
  exists winter_map.
  apply (map_view_summer_missing tb_same (dec64 85 100) winter_only_state
           winter_map Hw).
  vm_compute; reflexivity.
Defined.

(** X10 on the header of a spreadsheet; on a table in the cache with no
    file on disk; on the header with a repeated label; with no file; on a
    file of zero bytes. *)
Lemma load_data_spec_witness :
  let df :=
    mk_DataFrame
      (numeric_columns no_numeric (df_cols (strip_columns spreadsheet_table))) in
  load_data no_numeric (table_state spreadsheet_table)
    = (Ok df, with_cache df (table_state spreadsheet_table))
  ∧ columns df = ["Season"; "Month"; "Area_km2"; "Latitude"; "Longitude"]
  ∧ load_data no_numeric (warm_state wide_table)
    = (Ok wide_table, warm_state wide_table)
  ∧ load_data no_numeric (table_state duplicate_label_table)
    = (Raise TypeError, table_state duplicate_label_table)
  ∧ load_data no_numeric empty_state
    = (Raise (FileNotFoundError CSV_PATH), empty_state)
  ∧ load_data no_numeric empty_file_state
    = (Raise EmptyDataError, empty_file_state).
Proof.
  intros df. split_and!.
  - destruct (load_data_spec no_numeric (table_state spreadsheet_table))
      as (_ & Hcold).
    destruct (Hcold eq_refl) as (_ & _ & _ & _ & Hparsed).
    rewrite (Hparsed spreadsheet_table) by reflexivity.
    vm_compute; reflexivity.
  - vm_compute; reflexivity.
  - destruct (load_data_spec no_numeric (warm_state wide_table)) as (Hwarm & _).
    apply Hwarm. reflexivity.
  - destruct (load_data_spec no_numeric (table_state duplicate_label_table))
      as (_ & Hcold).
    destruct (Hcold eq_refl) as (_ & _ & _ & _ & Hparsed).
    rewrite (Hparsed duplicate_label_table) by reflexivity.
    vm_compute; reflexivity.
  - destruct (load_data_spec no_numeric empty_state) as (_ & Hcold).
    destruct (Hcold eq_refl) as (Hmissing & _).
    apply Hmissing. reflexivity.
  - destruct (load_data_spec no_numeric empty_file_state) as (_ & Hcold).
    destruct (Hcold eq_refl) as (_ & Hempty & _).
    apply Hempty. reflexivity.
Defined.

(** X11 with nothing on disk, on the Contact view, with all libraries and
    with none. *)
Lemma app_needs_the_table_witness :
  app tb_same no_numeric no_explorer all_present "Contact" (dec64 85 100)
      empty_state
    = (Raise (FileNotFoundError CSV_PATH), add_ui chrome empty_state)
  ∧ app tb_same no_numeric no_explorer no_numpy "Contact" (dec64 85 100)
        empty_state
    = (Raise (NameError "folium"), add_ui [PAGE_CONFIG] empty_state).
Proof.
  split.
  - exact (app_needs_the_table tb_same no_numeric no_explorer all_present
             "Contact" (dec64 85 100) empty_state eq_refl eq_refl).
  - exact (app_needs_the_table tb_same no_numeric no_explorer no_numpy
             "Contact" (dec64 85 100) empty_state eq_refl eq_refl).
Defined.

(** X12 from the required columns to a wider table in another order. *)
Lemma validate_columns_monotone_witness :
  validate_columns wide_table REQUIRED_COLUMNS empty_state = (Ok (), empty_state).
Proof.
  apply (validate_columns_monotone
           (mk_DataFrame ((λ c, (c, [])) <$> REQUIRED_COLUMNS)) wide_table
           REQUIRED_COLUMNS empty_state empty_state).
  - intros c Hc. change (c ∈ REQUIRED_COLUMNS) in Hc.
    change (c ∈ ["Notes"; "Longitude"; "Latitude"; "Area_km2"; "Month"; "Season"]).
    unfold REQUIRED_COLUMNS in Hc. rewrite !elem_of_cons, elem_of_nil in Hc.
    destruct Hc as [->|[->|[->|[->|[->|[]]]]]];
      repeat (apply list_elem_of_here || apply list_elem_of_further).
  - vm_compute; reflexivity.
Defined.

(** X13 on the header of a spreadsheet. *)
Lemma loaded_labels_are_trimmed_witness :
  ∃ df,
    (load_data no_numeric (table_state spreadsheet_table)).1 = Ok df
    ∧ chr 9 +:+ "Latitude" +:+ chr 133 ∈ columns spreadsheet_table
    ∧ "Latitude" ∈ columns df
    ∧ cache_sound no_numeric
        (load_data no_numeric (table_state spreadsheet_table)).2
    ∧ ∀ label, label ∈ columns df →
        lstrip label = label ∧ rstrip label = label ∧ strip label = label.
Proof.
  eexists. split; [vm_compute; reflexivity|].
  split; [repeat (apply list_elem_of_here || apply list_elem_of_further)|].
  split; [repeat (apply list_elem_of_here || apply list_elem_of_further)|].
  apply (loaded_labels_are_trimmed no_numeric (table_state spreadsheet_table)).
  - intros df Hcache. discriminate Hcache.
  - vm_compute; reflexivity.
Defined.

(** Beyond 2^24 the conversion to [float32] merges neighbouring integers:
    with the sentinel 16777216, the cell 16777217 is taken for it. *)
Example int_cell_beyond_exact_range :
  getitem (classify_band (mk_ndarray 1 1 [IntCell 16777217])
             (Some (f64 16777216))) 0 0
  = Some (class_rgba Background).
Proof. vm_compute. reflexivity. Qed.
